(** * Transaction confirmation workflow of the expense tracker front end

    A shallow embedding of the client-side code that uploads a payment
    record, lets the user review the extracted fields and saves the
    confirmed transaction:

    - [TransactionConfirmationModal] (src/frontend/app/components/BackendCharts.jsx,
      second document): [validateField], [handleFieldEdit], [handleConfirm];
    - the API helpers (src/unnamed/part_000): [fetchExpenses],
      [deleteTransactionAPI], [confirmTransaction];
    - [UploadComponent] and [DeleteButton] (src/unnamed/part_001):
      [handleSubmit], [handleConfirmTransaction], [handleDiscardTransaction],
      [handleDelete];
    - [Home] (src/frontend/app/page.jsx): [loadExpenses].

    JavaScript values are modelled as JSON data plus [undefined]; strings
    are sequences of UTF-16 code units; numbers are IEEE 754 binary64
    values, taken from the Standard Library's [SpecFloat]. *)

From Stdlib Require Import ZArith NArith String Ascii List Bool SpecFloat Lia.
From stdpp Require Import gmap list fin_maps pretty.

Set Warnings "-register-all".

(** ** JavaScript values *)

Module JS.

(** A string is a sequence of UTF-16 code units. *)
Definition jstring : Type := list N.

(** A literal of the source, for literals made of ASCII characters. *)
Definition str (s : string) : jstring :=
  map N_of_ascii (list_ascii_of_string s).
Arguments str s%_string : simpl never.

Definition number : Type := spec_float.

Inductive value : Type :=
  | VUndefined
  | VNull
  | VBool (b : bool)
  | VNum (x : number)
  | VStr (s : jstring)
  | VArr (l : list value)
  | VObj (o : gmap jstring value).

(** ToBoolean. *)
Definition truthy (v : value) : bool :=
  match v with
  | VUndefined | VNull => false
  | VBool b => b
  | VNum (S754_zero _) | VNum S754_nan => false
  | VNum _ => true
  | VStr s => negb (bool_decide (s = []))
  | VArr _ | VObj _ => true
  end.

(** What a handler may throw. [ErrorObj m] is [new Error(m)]; [TypeError]
    is raised by the engine (reading a property of [null], calling what is
    not a function) with a text of the engine's own; [Rejected m] is the
    rejection of a [fetch] or of [res.json()], whose text comes from the
    network layer. *)
Inductive exn : Type :=
  | ErrorObj (message : jstring)
  | TypeError
  | Rejected (message : jstring).

Inductive completion (A : Type) : Type :=
  | Normal (a : A)
  | Throw (e : exn).
Arguments Normal {A} a.
Arguments Throw {A} e.

Definition cbind {A B} (c : completion A) (k : A → completion B) : completion B :=
  match c with
  | Normal a => k a
  | Throw e => Throw e
  end.

(** [o[k]] on an object that was built from JSON or by the code itself. *)
Definition get (o : gmap jstring value) (k : jstring) : value :=
  default VUndefined (o !! k).

(** [Object.keys(o)]. The order of the keys is that of the map; every use
    below is shown not to depend on it. *)
Definition Object_keys (o : gmap jstring value) : list jstring :=
  (map_to_list o).*1.

(** [v.k] for one of the names the handlers read ([requires_password],
    [success], [extracted_data], [status], [detail]): none of them is a
    property of a prototype, so only an object's own entries answer. *)
Definition getProp (v : value) (k : jstring) : completion value :=
  match v with
  | VUndefined | VNull => Throw TypeError
  | VObj o => Normal (get o k)
  | VBool _ | VNum _ | VStr _ | VArr _ => Normal VUndefined
  end.

(** *** Numbers *)

Definition prec : Z := 53.
Definition emax : Z := 1024.

Definition NaN : number := S754_nan.
Definition num_of_Z (z : Z) : number := binary_normalize prec emax z 0 false.

Definition isNaN (x : number) : bool :=
  match x with S754_nan => true | _ => false end.

(** [x <= y] and [x > y]; both are false when an operand is NaN. *)
Definition num_le (x y : number) : bool := SFleb x y.
Definition num_gt (x y : number) : bool := SFltb y x.

(** *** Strings *)

(** WhiteSpace and LineTerminator code units of ECMAScript. *)
Definition isWhiteSpace (c : N) : bool :=
  (bool_decide (c ∈ [0x0009; 0x000A; 0x000B; 0x000C; 0x000D; 0x0020; 0x00A0;
                     0x1680; 0x2028; 0x2029; 0x202F; 0x205F; 0x3000; 0xFEFF]%N)
   || ((0x2000 <=? c) && (c <=? 0x200A)))%N.

Fixpoint trimStart (s : jstring) : jstring :=
  match s with
  | c :: s' => if isWhiteSpace c then trimStart s' else s
  | [] => []
  end.

Definition trimEnd (s : jstring) : jstring := rev (trimStart (rev s)).

(** [s.trim()]. *)
Definition trim (s : jstring) : jstring := trimEnd (trimStart s).

Definition isDigit (c : N) : bool := ((48 <=? c) && (c <=? 57))%N.

Fixpoint takeDigits (s : jstring) : list N * jstring :=
  match s with
  | c :: s' =>
      if isDigit c then let '(ds, r) := takeDigits s' in (c :: ds, r)
      else ([], s)
  | [] => ([], [])
  end.

(** The mathematical value of a run of decimal digits. *)
Definition digitsValue (ds : list N) : Z :=
  fold_left (λ acc c, 10 * acc + (Z.of_N c - 48))%Z ds 0%Z.

(** An optional sign: whether it was a minus, and what follows it. *)
Definition takeSign (s : jstring) : bool * jstring :=
  match s with
  | c :: t =>
      if bool_decide (c = 45%N) then (true, t)
      else if bool_decide (c = 43%N) then (false, t)
      else (false, s)
  | [] => (false, s)
  end.

(** ExponentPart: [e] or [E], an optional sign, at least one digit. When
    the part is incomplete nothing of it is consumed. *)
Definition scanExponent (s : jstring) : Z * jstring :=
  match s with
  | c :: s1 =>
      if bool_decide (c = 101%N ∨ c = 69%N) then
        let '(neg, s2) := takeSign s1 in
        match takeDigits s2 with
        | ([], _) => (0%Z, s)
        | (ds, r) => ((if neg then - digitsValue ds else digitsValue ds)%Z, r)
        end
      else (0%Z, s)
  | [] => (0%Z, s)
  end.

(** A dot and the digits after it, if the text goes on with a dot. *)
Definition takeFraction (s : jstring) : option (list N * jstring) :=
  match s with
  | c :: t => if bool_decide (c = 46%N) then Some (takeDigits t) else None
  | [] => None
  end.

(** An unsigned literal that was read: [Infinity], or the decimal
    [mant * 10^exp10]. *)
Inductive literal : Type :=
  | LitInfinity
  | LitDecimal (mant : Z) (exp10 : Z).

Fixpoint stripPrefix (p s : jstring) : option jstring :=
  match p, s with
  | [], _ => Some s
  | a :: p', b :: s' => if bool_decide (a = b) then stripPrefix p' s' else None
  | _ :: _, [] => None
  end.

(** The longest prefix of [s] that is a StrUnsignedDecimalLiteral, with
    what follows it: [Infinity]; digits, with an optional fraction and an
    optional exponent; or a dot, digits and an optional exponent. *)
Definition scanUnsigned (s : jstring) : option (literal * jstring) :=
  match stripPrefix (str "Infinity") s with
  | Some r => Some (LitInfinity, r)
  | None =>
      let '(ip, r1) := takeDigits s in
      match ip, takeFraction r1 with
      | _ :: _, Some (fd, r2) =>
          let '(e, r3) := scanExponent r2 in
          Some (LitDecimal (digitsValue (ip ++ fd)) (e - Z.of_nat (length fd)), r3)
      | _ :: _, None =>
          let '(e, r3) := scanExponent r1 in
          Some (LitDecimal (digitsValue ip) e, r3)
      | [], Some (d :: fd, r2) =>
          let '(e, r3) := scanExponent r2 in
          Some (LitDecimal (digitsValue (d :: fd)) (e - Z.of_nat (length (d :: fd))), r3)
      | [], _ => None
      end
  end.

(** The longest prefix that is a StrDecimalLiteral: an optional sign, then
    an unsigned literal. *)
Definition scanDecimal (s : jstring) : option (bool * literal * jstring) :=
  let '(neg, t) := takeSign s in
  '(l, r) ← scanUnsigned t;
  Some (neg, l, r).

(** Text that cannot continue a run of digits into a longer literal:
    nothing, or a character that is no digit, no dot and no [e] or [E]. *)
Definition endsNumber (rest : jstring) : bool :=
  match rest with
  | [] => true
  | c :: _ =>
      negb (isDigit c) && negb (bool_decide (c = 46%N))
      && negb (bool_decide (c = 101%N ∨ c = 69%N))
  end.

(** [P] holds of [count] consecutive integers from [n] on. *)
Fixpoint allFrom (count : nat) (n : Z) (P : Z → bool) : bool :=
  match count with
  | O => true
  | S c => P n && allFrom c (n + 1)%Z P
  end.

(** The binary64 value nearest to a literal (ties to even). *)
Definition roundLiteral (neg : bool) (l : literal) : number :=
  match l with
  | LitInfinity => S754_infinity neg
  | LitDecimal mant exp10 =>
      match mant with
      | Zpos m =>
          if (0 <=? exp10)%Z then
            binary_normalize prec emax
              ((if neg then Zneg m else Zpos m) * 10 ^ exp10)%Z 0 false
          else
            SFdiv prec emax (S754_finite neg m 0)
                  (S754_finite false (Z.to_pos (10 ^ (- exp10))) 0)
      | _ => S754_zero neg
      end
  end.

(** [parseFloat] of a string: leading white space is skipped, the longest
    numeric prefix is read, the rest of the string is ignored. *)
Definition parseFloatString (s : jstring) : number :=
  match scanDecimal (trimStart s) with
  | Some (neg, l, _) => roundLiteral neg l
  | None => NaN
  end.

(** [parseFloat(v)] reads [ToString(v)]. For a number [x] that string is a
    decimal literal that denotes [x] again (and ["0"] for either zero); an
    array prints as its elements joined by commas, and a comma ends any
    literal, so the first element decides. *)
Fixpoint parseFloat (v : value) : number :=
  match v with
  | VStr s => parseFloatString s
  | VNum (S754_zero _) => S754_zero false
  | VNum x => x
  | VUndefined => parseFloatString (str "undefined")
  | VNull => parseFloatString (str "null")
  | VBool true => parseFloatString (str "true")
  | VBool false => parseFloatString (str "false")
  | VObj _ => parseFloatString (str "[object Object]")
  | VArr (x :: _) => parseFloat x
  | VArr [] => parseFloatString []
  end.

(** [v.trim().length]: only strings have a [trim] method. *)
Definition trimLength (v : value) : completion nat :=
  match v with
  | VStr s => Normal (length (trim s))
  | _ => Throw TypeError
  end.

(** [s.includes(t)] on strings: [t] occurs in [s]. *)
Fixpoint isPrefix (t s : jstring) : bool :=
  match t, s with
  | [], _ => true
  | a :: t', b :: s' => bool_decide (a = b) && isPrefix t' s'
  | _ :: _, [] => false
  end.

Fixpoint isInfix (t s : jstring) : bool :=
  isPrefix t s || match s with [] => false | _ :: s' => isInfix t s' end.

(** [v.includes(t)] for a string [t]: strings search a substring, arrays
    an element equal to [t]; no other value has the method. *)
Definition includes (v : value) (t : jstring) : completion bool :=
  match v with
  | VStr s => Normal (isInfix t s)
  | VArr l =>
      Normal (existsb (λ x, match x with
                            | VStr s => bool_decide (s = t)
                            | _ => false
                            end) l)
  | _ => Throw TypeError
  end.

(** What the engine decides on its own: the text of its TypeErrors and the
    printing of numbers. *)
Record engine : Type := mkEngine {
  typeErrorText : jstring;
  numberToString : number → jstring
}.

Fixpoint joinWith (sep : jstring) (l : list jstring) : jstring :=
  match l with
  | [] => []
  | [x] => x
  | x :: l' => x ++ sep ++ joinWith sep l'
  end.

(** ToString. *)
Fixpoint toString (E : engine) (v : value) : jstring :=
  match v with
  | VUndefined => str "undefined"
  | VNull => str "null"
  | VBool true => str "true"
  | VBool false => str "false"
  | VNum x => numberToString E x
  | VStr s => s
  | VArr l =>
      joinWith (str ",")
        (map (λ x, match x with
                   | VUndefined | VNull => []
                   | _ => toString E x
                   end) l)
  | VObj _ => str "[object Object]"
  end.

(** [e.message] *)
Definition messageOf (E : engine) (e : exn) : jstring :=
  match e with
  | ErrorObj m => m
  | TypeError => typeErrorText E
  | Rejected m => m
  end.

(** [new Error(v)] *)
Definition newError (E : engine) (v : value) : exn :=
  match v with
  | VUndefined => ErrorObj []
  | _ => ErrorObj (toString E v)
  end.

(** *** Handlers: state and exceptions *)

Definition M (S A : Type) : Type := S → completion A * S.

Definition ret {S A} (a : A) : M S A := λ s, (Normal a, s).

Definition bind {S A B} (m : M S A) (k : A → M S B) : M S B :=
  λ s, match m s with
       | (Normal a, s') => k a s'
       | (Throw e, s') => (Throw e, s')
       end.

Definition throw {S A} (e : exn) : M S A := λ s, (Throw e, s).

Definition lift {S A} (c : completion A) : M S A := λ s, (c, s).

Definition gets {S A} (f : S → A) : M S A := λ s, (Normal (f s), s).

Definition modify {S} (f : S → S) : M S unit := λ s, (Normal (), f s).

(** [try { m } catch (e) { h e }] *)
Definition tryCatch {S A} (m : M S A) (h : exn → M S A) : M S A :=
  λ s, match m s with
       | (Throw e, s') => h e s'
       | r => r
       end.

(** [try { m } finally { f }] *)
Definition tryFinally {S A} (m : M S A) (f : M S unit) : M S A :=
  λ s, let '(r, s') := m s in
       match f s' with
       | (Normal _, s'') => (r, s'')
       | (Throw e, s'') => (Throw e, s'')
       end.

End JS.

(** ** TransactionConfirmationModal *)

Module Modal.
Import JS.

#[global] Instance completion_ret : MRet completion := @Normal.
#[global] Instance completion_bind : MBind completion := λ A B k c, cbind c k.

(** The component's four [useState] cells. *)
Record state : Type := mkState {
  editedData : option (gmap jstring value);
  editingField : option jstring;
  validationErrors : gmap jstring value;
  warnings : gmap jstring value
}.

Definition setEditedData (d : gmap jstring value) (st : state) : state :=
  mkState (Some d) (editingField st) (validationErrors st) (warnings st).
Definition setValidationErrors (e : gmap jstring value) (st : state) : state :=
  mkState (editedData st) (editingField st) e (warnings st).
Definition setWarnings (w : gmap jstring value) (st : state) : state :=
  mkState (editedData st) (editingField st) (validationErrors st) w.

Definition msgAmount : jstring := str "Amount must be a positive number".
Definition msgLarge : jstring := str "Large amount detected - please verify".
Definition msgName : jstring := str "Name must be at least 2 characters".
Definition msgTxId : jstring := str "Transaction ID must be at least 4 characters".

(** [!value || value.trim().length < n] *)
Definition tooShort (value : JS.value) (n : nat) : completion bool :=
  if negb (truthy value) then Normal true
  else len ← trimLength value; Normal (len <? n).

Definition validateField (field : jstring) (value : JS.value)
  : completion (gmap jstring JS.value * gmap jstring JS.value) :=
  let errors : gmap jstring JS.value := ∅ in
  let warns : gmap jstring JS.value := ∅ in
  let '(errors, warns) :=
    if bool_decide (field = str "amount") then
      let numValue := parseFloat value in
      if isNaN numValue || num_le numValue (num_of_Z 0) then
        (<[field := VStr msgAmount]> errors, warns)
      else if num_gt numValue (num_of_Z 100000) then
        (errors, <[field := VStr msgLarge]> warns)
      else (errors, warns)
    else (errors, warns) in
  errors ←
    (if bool_decide (field = str "sender" ∨ field = str "receiver") then
       short ← tooShort value 2;
       Normal (if short : bool then <[field := VStr msgName]> errors else errors)
     else Normal errors);
  errors ←
    (if bool_decide (field = str "transaction_id") then
       short ← tooShort value 4;
       Normal (if short : bool then <[field := VStr msgTxId]> errors else errors)
     else Normal errors);
  Normal (errors, warns).

(** [{ ...editedData }] when [editedData] is [null] or an object. *)
Definition spread (o : option (gmap jstring value)) : gmap jstring value :=
  default ∅ o.

(** [{ ...v }] for any value: an object gives its entries, a string and
    an array their elements under their indices, anything else nothing. *)
Definition spreadValue (v : value) : gmap jstring value :=
  match v with
  | VObj o => o
  | VStr s => list_to_map (imap (λ i c, (str (pretty i), VStr [c])) s)
  | VArr l => list_to_map (imap (λ i x, (str (pretty i), x)) l)
  | _ => ∅
  end.

(** The effect that runs when the [extractedData] prop changes. *)
Definition onExtractedData (extractedData : value) (st : state) : state :=
  if truthy extractedData then mkState (Some (spreadValue extractedData)) None ∅ ∅
  else st.

(** [handleFieldEdit]: the state after the handler, and how it completed.
    [setEditedData] has been called when [validateField] throws.
    [errors[field]] and [warns[field]] are read as entries of the object
    itself, as for a field that is not one of
    [ModalEvents.inheritedNames]. *)
Definition handleFieldEdit (field : jstring) (value : JS.value) (st : state)
  : state * completion unit :=
  let newData := <[field := value]> (spread (editedData st)) in
  let st := setEditedData newData st in
  match validateField field value with
  | Throw e => (st, Throw e)
  | Normal (errors, warns) =>
      let st := setValidationErrors (<[field := get errors field]> (validationErrors st)) st in
      let st := setWarnings (<[field := get warns field]> (warnings st)) st in
      (st, Normal ())
  end.

(** [array.forEach(f)] for a callback that updates an accumulator. *)
Fixpoint forEach {A} (f : A → jstring → completion A) (keys : list jstring) (acc : A)
  : completion A :=
  match keys with
  | [] => Normal acc
  | k :: ks => acc' ← f acc k; forEach f ks acc'
  end.

(** The body of the [forEach] callback of [handleConfirm]. [errors[field]]
    and [warns[field]] are read as entries of the object itself, which is
    what the source reads when [field] is not one of
    [ModalEvents.inheritedNames]; the properties below keep to copies
    whose keys are none of these names. *)
Definition confirmStep (editedData : gmap jstring value)
    (acc : gmap jstring value * gmap jstring value) (field : jstring)
  : completion (gmap jstring value * gmap jstring value) :=
  let '(allErrors, allWarnings) := acc in
  if bool_decide (field ≠ str "confidence") then
    '(errors, warns) ← validateField field (get editedData field);
    let allErrors :=
      if truthy (get errors field) then <[field := get errors field]> allErrors
      else allErrors in
    let allWarnings :=
      if truthy (get warns field) then <[field := get warns field]> allWarnings
      else allWarnings in
    Normal (allErrors, allWarnings)
  else Normal (allErrors, allWarnings).

(** [handleConfirm]: the state after the handler and the argument handed
    to [onConfirm], if it was called. Nothing has been set when the loop
    throws. *)
Definition handleConfirm (st : state)
  : completion (state * option (gmap jstring value)) :=
  match editedData st with
  | None => Throw TypeError
  | Some d =>
      '(allErrors, allWarnings) ← forEach (confirmStep d) (Object_keys d) (∅, ∅);
      let st := setValidationErrors allErrors st in
      let st := setWarnings allWarnings st in
      Normal (st, if (length (Object_keys allErrors) =? 0)%nat then Some d else None)
  end.

(** The [disabled] attribute of the Confirm button. *)
Definition confirmDisabled (isSaving : bool) (st : state) : bool :=
  isSaving
  || existsb (λ key, truthy (get (validationErrors st) key))
             (Object_keys (validationErrors st)).

(** What [onConfirm] received, if anything. *)
Definition handedOver (r : completion (state * option (gmap jstring value)))
  : option (gmap jstring value) :=
  match r with
  | Normal (_, call) => call
  | Throw _ => None
  end.

(** The fields whose validation calls [trim] hold a string or a falsy
    value, as the data model has them. *)
Definition textOk (v : value) : bool :=
  match v with
  | VStr _ => true
  | _ => negb (truthy v)
  end.

Definition wellTyped (d : gmap jstring value) : bool :=
  forallb (λ f, textOk (get d f))
          [str "sender"; str "receiver"; str "transaction_id"].

(** The error and the warning that [validateField] reports for a field. *)
Definition fieldError (field : jstring) (v : value) : option value :=
  match validateField field v with
  | Normal (errors, _) => errors !! field
  | Throw _ => None
  end.

Definition fieldWarning (field : jstring) (v : value) : option value :=
  match validateField field v with
  | Normal (_, warns) => warns !! field
  | Throw _ => None
  end.

(** What one round of the loop of [handleConfirm] does to an accumulator,
    given what [validateField] stored under the field. *)
Definition record (f : jstring) (r : option value) (acc : gmap jstring value)
  : gmap jstring value :=
  match r with
  | Some x => <[f := x]> acc
  | None => acc
  end.

(** The working copy's validation, field by field. *)
Definition revalidatedError (d : gmap jstring value) (f : jstring) : option value :=
  if bool_decide (f = str "confidence") then None else d !! f ≫= fieldError f.

Definition revalidatedWarning (d : gmap jstring value) (f : jstring) : option value :=
  if bool_decide (f = str "confidence") then None else d !! f ≫= fieldWarning f.

(** No field of the working copy, [confidence] apart, has an error. *)
Definition allValid (d : gmap jstring value) : Prop :=
  ∀ f v, f ≠ str "confidence" → d !! f = Some v → fieldError f v = None.

(** Every error on display belongs to the current value of its field. *)
Definition consistent (st : state) : Prop :=
  ∀ f x, validationErrors st !! f = Some x → truthy x = true →
         ∃ d v, editedData st = Some d ∧ d !! f = Some v ∧ fieldError f v = Some x.

End Modal.

(** ** The browser and the network, as the handlers see them *)

Module Browser.
Import JS.

(** [http://localhost:8000] is written out in two places of the source,
    the others go through [API_URL]. *)
Inductive url : Type :=
  | Localhost8000 (path : jstring)
  | ApiUrl (path : jstring).

Inductive requestBody : Type :=
  | NoBody
  | FormData (file : option N) (password : option jstring)
  | JsonBody (data : gmap jstring value).

Record request : Type := mkRequest {
  target : url;
  method : jstring;
  headers : list (jstring * jstring);
  body : requestBody
}.

(** The payload of a response: JSON, or something [res.json()] rejects. *)
Inductive payload : Type :=
  | Json (v : value)
  | NotJson (message : jstring).

Inductive fetchResult : Type :=
  | FetchFailed (message : jstring)
  | Response (status : N) (content : payload).

(** [res.ok] *)
Definition ok (status : N) : bool := ((200 <=? status) && (status <=? 299))%N.

Inductive timer : Type :=
  | ResetStatusAndMessage
  | ClearMessage.

Inductive effect : Type :=
  | Fetch (r : request)
  | RouterPush (path : jstring)
  | RouterRefresh
  | Alert (text : jstring)
  | ConfirmDialog (text : jstring)
  | ConsoleError
  | ConsoleLog
  | FormReset
  | SetTimeout (callback : timer) (ms : N).

(** [localStorage], the Supabase session (its access token) and everything
    the handlers did to the outside, oldest first. *)
Record world : Type := mkWorld {
  localStorage : gmap jstring jstring;
  session : option jstring;
  log : list effect
}.

Section Component.
(** The state of the component a handler belongs to. *)
Context {S : Type}.

Definition emit (e : effect) : M (world * S) unit :=
  modify (λ '(w, st), (mkWorld (localStorage w) (session w) (log w ++ [e]), st)).

Definition getItem (key : jstring) : M (world * S) (option jstring) :=
  gets (λ '(w, _), localStorage w !! key).

Definition removeItem (key : jstring) : M (world * S) unit :=
  modify (λ '(w, st), (mkWorld (delete key (localStorage w)) (session w) (log w), st)).

(** [supabase.auth.getSession()], down to [session.access_token]. *)
Definition getSession : M (world * S) (option jstring) :=
  gets (λ '(w, _), session w).

Definition setState (f : S → S) : M (world * S) unit :=
  modify (λ '(w, st), (w, f st)).

Definition getState : M (world * S) S := gets snd.

(** [await fetch(...)]: the request leaves, the network answers. *)
Definition fetch (remote : request → fetchResult) (r : request)
  : M (world * S) (N * payload) :=
  bind (emit (Fetch r)) (λ _,
    match remote r with
    | FetchFailed m => throw (Rejected m)
    | Response status content => ret (status, content)
    end).

(** [await res.json()] *)
Definition json (content : payload) : M (world * S) value :=
  match content with
  | Json v => ret v
  | NotJson m => throw (Rejected m)
  end.
End Component.

(** A token read from [localStorage] that passes [if (!token)]. *)
Definition usable (token : option jstring) : option jstring :=
  match token with
  | Some ((_ :: _) as t) => Some t
  | _ => None
  end.

Definition bearer (token : jstring) : jstring * jstring :=
  (str "Authorization", str "Bearer " ++ token).

End Browser.

(** ** lib/api.js *)

Module Api.
Import JS Browser.

#[global] Instance M_ret {S} : MRet (M S) := @ret S.
#[global] Instance M_bind {S} : MBind (M S) := λ A B k m, bind m k.

Section Api.
Context {S : Type}.
Variable E : engine.
Variable remote : request → fetchResult.

Definition fetchExpenses (token : jstring) : M (world * S) value :=
  tryCatch
    ('(status, content) ← fetch remote
         (mkRequest (Localhost8000 (str "/expenses")) (str "GET") [bearer token] NoBody);
     if bool_decide (status = 401%N) then throw (ErrorObj (str "Unauthorized"))
     else if bool_decide (status = 404%N) then ret (VArr [])
     else if negb (ok status) then throw (ErrorObj (str "Failed to fetch expenses"))
     else json content)
    (λ error,
       emit ConsoleError;;
       if bool_decide (messageOf E error = str "Unauthorized") then throw error
       else ret (VArr [])).

Definition deleteTransactionAPI (id token : jstring) : M (world * S) value :=
  '(status, content) ← fetch remote
      (mkRequest (ApiUrl (str "/expenses/" ++ id)) (str "DELETE") [bearer token] NoBody);
  if bool_decide (status = 401%N) then throw (ErrorObj (str "Unauthorized"))
  else if negb (ok status) then throw (ErrorObj (str "Failed to delete expense"))
  else json content.

Definition refreshCharts (token : jstring) : M (world * S) value :=
  '(status, content) ← fetch remote
      (mkRequest (ApiUrl (str "/reports/refresh")) (str "POST") [bearer token] NoBody);
  if bool_decide (status = 401%N) then throw (ErrorObj (str "Unauthorized"))
  else if negb (ok status) then throw (ErrorObj (str "Failed to refresh charts"))
  else json content.

Definition confirmTransaction (transactionData : gmap jstring value) (token : jstring)
  : M (world * S) value :=
  '(status, content) ← fetch remote
      (mkRequest (ApiUrl (str "/transactions/confirm")) (str "POST")
         [(str "Content-Type", str "application/json"); bearer token]
         (JsonBody transactionData));
  if bool_decide (status = 401%N) then throw (ErrorObj (str "Unauthorized"))
  else if negb (ok status) then
    error ← json content;
    detail ← lift (getProp error (str "detail"));
    throw (newError E (if truthy detail then detail
                       else VStr (str "Failed to save transaction")))
  else json content.
End Api.

End Api.

(** ** UploadComponent *)

Module Upload.
Import JS Browser Api.

Record state : Type := mkState {
  status : jstring;
  password : jstring;
  requiresPassword : bool;
  selectedFile : option N;
  message : value;
  extractedData : value;
  showConfirmation : bool;
  isSaving : bool
}.

Definition setStatus (x : jstring) : M (world * state) unit :=
  setState (λ st, mkState x (password st) (requiresPassword st) (selectedFile st)
                    (message st) (extractedData st) (showConfirmation st) (isSaving st)).
Definition setPassword (x : jstring) : M (world * state) unit :=
  setState (λ st, mkState (status st) x (requiresPassword st) (selectedFile st)
                    (message st) (extractedData st) (showConfirmation st) (isSaving st)).
Definition setRequiresPassword (x : bool) : M (world * state) unit :=
  setState (λ st, mkState (status st) (password st) x (selectedFile st)
                    (message st) (extractedData st) (showConfirmation st) (isSaving st)).
Definition setSelectedFile (x : option N) : M (world * state) unit :=
  setState (λ st, mkState (status st) (password st) (requiresPassword st) x
                    (message st) (extractedData st) (showConfirmation st) (isSaving st)).
Definition setMessage (x : value) : M (world * state) unit :=
  setState (λ st, mkState (status st) (password st) (requiresPassword st) (selectedFile st)
                    x (extractedData st) (showConfirmation st) (isSaving st)).
Definition setExtractedData (x : value) : M (world * state) unit :=
  setState (λ st, mkState (status st) (password st) (requiresPassword st) (selectedFile st)
                    (message st) x (showConfirmation st) (isSaving st)).
Definition setShowConfirmation (x : bool) : M (world * state) unit :=
  setState (λ st, mkState (status st) (password st) (requiresPassword st) (selectedFile st)
                    (message st) (extractedData st) x (isSaving st)).
Definition setIsSaving (x : bool) : M (world * state) unit :=
  setState (λ st, mkState (status st) (password st) (requiresPassword st) (selectedFile st)
                    (message st) (extractedData st) (showConfirmation st) x).

(** The emoji of the messages, in UTF-16. *)
Definition checkMark : jstring := [0x2705%N].
Definition crossMark : jstring := [0x274C%N].
Definition lock : jstring := [0xD83D%N; 0xDD10%N].

Definition msgPassword : jstring :=
  lock ++ str " This PDF requires a password. Please enter it below.".
Definition msgProcessed : jstring := checkMark ++ str " File processed successfully!".
Definition msgNotProcessed : jstring := crossMark ++ str " Failed to process file".
Definition msgNoServer : jstring := crossMark ++ str " Error connecting to server".
Definition msgSaved : jstring := checkMark ++ str " Transaction saved successfully!".
Definition msgSaveFailed : jstring := crossMark ++ str " Failed to save: ".

(** What the two [setTimeout] callbacks do when they fire. *)
Definition runTimer (t : timer) : M (world * state) unit :=
  match t with
  | ResetStatusAndMessage => setStatus (str "idle");; setMessage (VStr [])
  | ClearMessage => setMessage (VStr [])
  end.

Definition handleFileChange (file : option N) : M (world * state) unit :=
  setSelectedFile file;;
  setRequiresPassword false;;
  setPassword [];;
  setMessage (VStr []).

(** [a || b] on values. *)
Definition orElse (a b : value) : value := if truthy a then a else b.

Section Handlers.
Variable E : engine.
Variable remote : request → fetchResult.

Definition handleSubmit : M (world * state) unit :=
  setStatus (str "uploading");;
  setMessage (VStr []);;
  st ← getState;
  let formData :=
    FormData (selectedFile st)
             (if truthy (VStr (password st)) then Some (password st) else None) in
  tryCatch
    (token ← getItem (str "sb-token");
     match usable token with
     | None => emit (RouterPush (str "/login"))
     | Some token =>
         '(status, content) ← fetch remote
             (mkRequest (Localhost8000 (str "/upload")) (str "POST") [bearer token] formData);
         if bool_decide (status = 401%N) then
           removeItem (str "sb-token");;
           emit (RouterPush (str "/login"))
         else
           data ← json content;
           requires_password ← lift (getProp data (str "requires_password"));
           if truthy requires_password then
             setRequiresPassword true;;
             setStatus (str "idle");;
             setMessage (VStr msgPassword)
           else
             success ← lift (getProp data (str "success"));
             extracted_data ← lift (getProp data (str "extracted_data"));
             if truthy success && truthy extracted_data then
               setExtractedData extracted_data;;
               setShowConfirmation true;;
               setStatus (str "idle");;
               setMessage (VStr []);;
               emit FormReset
             else
               status ← lift (getProp data (str "status"));
               marked ← (if truthy success then ret true
                         else if truthy status then lift (includes status checkMark)
                         else ret false);
               if marked : bool then
                 setStatus (str "success");;
                 setMessage (orElse status (VStr msgProcessed));;
                 setRequiresPassword false;;
                 setPassword [];;
                 setSelectedFile None;;
                 emit FormReset;;
                 emit RouterRefresh;;
                 emit (SetTimeout ResetStatusAndMessage 3000)
               else
                 setStatus (str "error");;
                 setMessage (orElse status (VStr msgNotProcessed))
     end)
    (λ error,
       emit ConsoleError;;
       setStatus (str "error");;
       setMessage (VStr msgNoServer)).

Definition handleConfirmTransaction (confirmedData : gmap jstring value)
  : M (world * state) unit :=
  tryCatch
    (session ← getSession;
     match session with
     | None => emit (Alert (str "Please login first"))
     | Some access_token =>
         setIsSaving true;;
         setStatus (str "uploading");;
         setMessage (VStr (str "Saving transaction..."));;
         let dataToSave := delete (str "confidence") confirmedData in
         emit ConsoleLog;;
         result ← confirmTransaction E remote dataToSave access_token;
         emit ConsoleLog;;
         setShowConfirmation false;;
         setExtractedData VNull;;
         setIsSaving false;;
         setStatus (str "success");;
         setMessage (VStr msgSaved);;
         emit RouterRefresh;;
         emit (SetTimeout ResetStatusAndMessage 3000)
     end)
    (λ error,
       emit ConsoleError;;
       setIsSaving false;;
       setStatus (str "error");;
       setMessage (VStr (msgSaveFailed ++
                         (if truthy (VStr (messageOf E error)) then messageOf E error
                          else str "Unknown error")))).
End Handlers.

Definition handleDiscardTransaction : M (world * state) unit :=
  setShowConfirmation false;;
  setExtractedData VNull;;
  setStatus (str "idle");;
  setMessage (VStr (str "Transaction discarded"));;
  emit (SetTimeout ClearMessage 2000).

(** The disambiguation order as the specification words it: the
    password-required flag first, then the structured-extraction success,
    then a generic success flag or the free-text success marker, otherwise
    an error. *)
Inductive responseClass : Type :=
  | PasswordRequired
  | ExtractedCandidate
  | DirectSuccess
  | OtherShape.

Definition hasSuccessMarker (status : value) : bool :=
  match includes status checkMark with
  | Normal b => b
  | Throw _ => false
  end.

Definition specClassify (data : gmap jstring value) : responseClass :=
  if truthy (get data (str "requires_password")) then PasswordRequired
  else if truthy (get data (str "success")) && truthy (get data (str "extracted_data"))
  then ExtractedCandidate
  else if truthy (get data (str "success"))
          || (truthy (get data (str "status")) && hasSuccessMarker (get data (str "status")))
  then DirectSuccess
  else OtherShape.

(** The request that [handleConfirmTransaction] sends for a working copy. *)
Definition confirmRequest (d : gmap jstring value) (access_token : jstring) : request :=
  mkRequest (ApiUrl (str "/transactions/confirm")) (str "POST")
    [(str "Content-Type", str "application/json"); bearer access_token]
    (JsonBody (delete (str "confidence") d)).

(** The backend accepted the transaction: a 2xx answer with a JSON body. *)
Definition saved (r : fetchResult) : bool :=
  match r with
  | Response status (Json _) => ok status
  | _ => false
  end.

End Upload.

(** ** DeleteButton *)

Module DeleteButton.
Import JS Browser Api.

Section Handlers.
Variable E : engine.
Variable remote : request → fetchResult.

(** [answer] is what the user replies to the [confirm] dialog. *)
Definition handleDelete (id : jstring) (answer : bool) : M (world * unit) unit :=
  emit (ConfirmDialog (str "Are you sure?"));;
  if negb answer then ret ()
  else
    tryCatch
      (session ← getSession;
       match session with
       | None => emit (Alert (str "Please login first"))
       | Some access_token =>
           deleteTransactionAPI remote id access_token;;
           emit RouterRefresh
       end)
      (λ e, emit ConsoleError;; emit (Alert (str "Failed to delete"))).
End Handlers.

End DeleteButton.

(** ** Home *)

Module Home.
Import JS Browser Api.

Record state : Type := mkState {
  expenses : value;
  backendConnected : bool;
  loading : bool
}.

Definition setExpenses (x : value) : M (world * state) unit :=
  setState (λ st, mkState x (backendConnected st) (loading st)).
Definition setBackendConnected (x : bool) : M (world * state) unit :=
  setState (λ st, mkState (expenses st) x (loading st)).
Definition setLoading (x : bool) : M (world * state) unit :=
  setState (λ st, mkState (expenses st) (backendConnected st) x).

Section Handlers.
Variable E : engine.
Variable remote : request → fetchResult.

Definition loadExpenses : M (world * state) unit :=
  tryFinally
    (tryCatch
       (token ← getItem (str "sb-token");
        match usable token with
        | Some token =>
            data ← fetchExpenses E remote token;
            setExpenses data
        | None => ret ()
        end)
       (λ error,
          emit ConsoleError;;
          if bool_decide (messageOf E error = str "Unauthorized") then
            removeItem (str "sb-token");;
            emit (RouterPush (str "/login"))
          else setBackendConnected false))
    (setLoading false).
End Handlers.

End Home.

(** ** The modal inside the upload component *)

Module App.
Import JS Browser.

(** The modal renders when [isOpen && extractedData && editedData]. *)
Definition reviewing (up : Upload.state) (m : Modal.state) : bool :=
  Upload.showConfirmation up
  && truthy (Upload.extractedData up)
  && bool_decide (is_Some (Modal.editedData m)).

(** A click on "Confirm & Save": [handleConfirm] of the modal, whose
    [onConfirm] is [handleConfirmTransaction] of the upload component. An
    exception in the click handler leaves every state as it was. *)
Definition confirm (E : engine) (remote : request → fetchResult)
    (w : world) (up : Upload.state) (m : Modal.state)
  : world * Upload.state * Modal.state :=
  match Modal.handleConfirm m with
  | Throw _ => (w, up, m)
  | Normal (m', None) => (w, up, m')
  | Normal (m', Some d) =>
      let '(_, (w', up')) := Upload.handleConfirmTransaction E remote d (w, up) in
      (w', up', m')
  end.

(** A click on "Discard" or on the close button. *)
Definition discard (w : world) (up : Upload.state) (m : Modal.state)
  : world * Upload.state * Modal.state :=
  let '(_, (w', up')) := Upload.handleDiscardTransaction (w, up) in
  (w', up', m).

End App.

(** ** Sample data *)

Module Samples.
Import JS.

(** An extraction result as the backend sends it, before any edit. *)
Definition extracted : gmap jstring value :=
  list_to_map
    [(str "amount", VNum (num_of_Z 450));
     (str "sender", VStr (str "Asha Rao"));
     (str "receiver", VStr (str "Corner Store"));
     (str "date", VStr (str "2024-03-01"));
     (str "time", VNull);
     (str "transaction_id", VStr (str "TXN0042"));
     (str "category", VStr (str "Food"));
     (str "confidence", VObj (list_to_map [(str "amount", VNum (num_of_Z 1))]))].

(** The modal right after it opened on the object [d]. *)
Definition reviewingState (d : gmap jstring value) : Modal.state :=
  Modal.onExtractedData (VObj d) (Modal.mkState None None ∅ ∅).

(** The same copy with a large amount typed in, and with a one-letter
    sender on top of that. *)
Definition largeAmount : gmap jstring value :=
  <[str "amount" := VStr (str "150000")]> extracted.

Definition largeAmountShortSender : gmap jstring value :=
  <[str "sender" := VStr (str "A")]> largeAmount.

Definition negativeAmount : gmap jstring value :=
  <[str "amount" := VStr (str "-5")]> extracted.

(** A browser with a stored token and a Supabase session, and a backend
    that answers every request with 401. *)
Definition engine0 : engine := mkEngine (str "not a function") (λ _, str "0").

Definition signedIn : Browser.world :=
  Browser.mkWorld {[ str "sb-token" := str "token-1" ]} (Some (str "token-1")) [].

Definition unauthorized (r : Browser.request) : Browser.fetchResult :=
  Browser.Response 401 (Browser.Json (VObj {[ str "detail" := VStr (str "Invalid token") ]})).

Definition uploadIdle : Upload.state :=
  Upload.mkState (str "idle") [] false (Some 1%N) (VStr []) VNull false false.

Definition uploadReviewing : Upload.state :=
  Upload.mkState (str "idle") [] false (Some 1%N) (VStr []) (VObj extracted) true false.

(** A backend that rejects every save with a message of its own. *)
Definition rejecting (r : Browser.request) : Browser.fetchResult :=
  Browser.Response 400
    (Browser.Json (VObj {[ str "detail" := VStr (str "Duplicate transaction") ]})).

End Samples.

(** ** The confidence marks of the modal *)

Module Confidence.
Import JS Modal.

(** One digit of a literal in base 2, 8 or 16. *)
Definition digitIn (base : Z) (c : N) : option Z :=
  let v :=
    if isDigit c then Some (Z.of_N c - 48)%Z
    else if ((97 <=? c) && (c <=? 102))%N then Some (Z.of_N c - 87)%Z
    else if ((65 <=? c) && (c <=? 70))%N then Some (Z.of_N c - 55)%Z
    else None in
  x ← v; if (x <? base)%Z then Some x else None.

Fixpoint digitsIn (base : Z) (s : jstring) (acc : Z) : option Z :=
  match s with
  | [] => Some acc
  | c :: s' => x ← digitIn base c; digitsIn base s' (base * acc + x)%Z
  end.

(** NonDecimalIntegerLiteral: [0x], [0o] or [0b] and at least one digit. *)
Definition nonDecimal (s : jstring) : option Z :=
  match s with
  | z :: p :: d :: ds =>
      if bool_decide (z = 48%N) then
        if bool_decide (p = 120%N ∨ p = 88%N) then digitsIn 16 (d :: ds) 0
        else if bool_decide (p = 111%N ∨ p = 79%N) then digitsIn 8 (d :: ds) 0
        else if bool_decide (p = 98%N ∨ p = 66%N) then digitsIn 2 (d :: ds) 0
        else None
      else None
  | _ => None
  end.

(** StringToNumber: white space around the text is dropped; the empty
    text is 0; otherwise the whole text must be one numeric literal. *)
Definition stringToNumber (s : jstring) : number :=
  match trim s with
  | [] => S754_zero false
  | t =>
      match nonDecimal t with
      | Some n => num_of_Z n
      | None =>
          match scanDecimal t with
          | Some (neg, l, []) => roundLiteral neg l
          | _ => NaN
          end
      end
  end.

(** ToPrimitive: arrays and objects print themselves. *)
Definition toPrimitive (E : engine) (v : value) : value :=
  match v with
  | VArr _ | VObj _ => VStr (toString E v)
  | _ => v
  end.

(** ToNumber. *)
Definition toNumber (E : engine) (v : value) : number :=
  match toPrimitive E v with
  | VUndefined => NaN
  | VNull => S754_zero false
  | VBool true => num_of_Z 1
  | VBool false => S754_zero false
  | VNum x => x
  | VStr s => stringToNumber s
  | _ => NaN
  end.

(** Strings compare by code units. *)
Fixpoint stringLess (a b : jstring) : bool :=
  match a, b with
  | _, [] => false
  | [], _ :: _ => true
  | x :: a', y :: b' => (x <? y)%N || (bool_decide (x = y) && stringLess a' b')
  end.

(** [a < b] *)
Definition lessThan (E : engine) (a b : value) : bool :=
  match toPrimitive E a, toPrimitive E b with
  | VStr s, VStr t => stringLess s t
  | pa, pb => SFltb (toNumber E pa) (toNumber E pb)
  end.

(** The literals [0.5] and [0.7] of the source. *)
Definition half : number := roundLiteral false (LitDecimal 5 (-1)).
Definition threshold : number := roundLiteral false (LitDecimal 7 (-1)).

(** [editedData.confidence?.[field] ?? 0.5], for the field names the
    modal displays (none of them is an index, [length] or the name of a
    method). *)
Definition getConfidence (st : state) (field : jstring) : value :=
  match editedData st with
  | None => VNum half
  | Some d =>
      let entry :=
        match getProp (get d (str "confidence")) field with
        | Normal x => x
        | Throw _ => VUndefined
        end in
      match entry with
      | VUndefined | VNull => VNum half
      | x => x
      end
  end.

Definition isLowConfidence (E : engine) (st : state) (field : jstring) : bool :=
  lessThan E (getConfidence st field) (VNum threshold).

End Confidence.

(** ** What can happen to the modal *)

Module ModalEvents.
Import JS Modal.

(** The seven fields the modal displays and lets the user edit. *)
Definition displayFields : list jstring :=
  [str "amount"; str "sender"; str "receiver"; str "date"; str "time";
   str "transaction_id"; str "category"].

(** Names that every object answers through its prototype; [o[k]] finds
    them without an entry of its own. *)
Definition inheritedNames : list jstring :=
  [str "constructor"; str "hasOwnProperty"; str "isPrototypeOf";
   str "propertyIsEnumerable"; str "toLocaleString"; str "toString";
   str "valueOf"; str "__proto__"; str "__defineGetter__";
   str "__defineSetter__"; str "__lookupGetter__"; str "__lookupSetter__"].

(** No key of the object is such a name. *)
Definition plainKeys (d : gmap jstring value) : Prop :=
  ∀ k, k ∈ inheritedNames → d !! k = None.

Inductive event : Type :=
  | Extracted (extractedData : value)
  | Typed (field : jstring) (text : jstring)
  | ConfirmClicked.

(** The modal after an event. The input element hands [handleFieldEdit]
    a string; a click whose handler throws leaves the state as it was. *)
Definition step (st : state) (e : event) : state :=
  match e with
  | Extracted v => onExtractedData v st
  | Typed field text => (handleFieldEdit field (VStr text) st).1
  | ConfirmClicked =>
      match handleConfirm st with
      | Normal (st', _) => st'
      | Throw _ => st
      end
  end.

(** What the user can do: the results that arrive are objects with plain
    keys, and only displayed fields are edited. *)
Definition possible (e : event) : Prop :=
  match e with
  | Extracted v => ∀ o, v = VObj o → plainKeys o
  | Typed field _ => field ∈ displayFields
  | ConfirmClicked => True
  end.

(** The four [useState] cells as the component starts. *)
Definition initial : state := mkState None None ∅ ∅.

End ModalEvents.

(** ** BackendCharts *)

Module Charts.
Import JS Browser Api.

Record state : Type := mkState {
  barChartUrl : value;
  lineChartUrl : value;
  pieChartUrl : value;
  merchantsChartUrl : value;
  barChartError : bool;
  lineChartError : bool;
  pieChartError : bool;
  merchantsChartError : bool;
  isClient : bool;
  modalImage : value;
  modalTitle : jstring
}.

Inductive chart : Type := Bar | Line | Pie | Merchants.

Definition endpoint (c : chart) : jstring :=
  match c with
  | Bar => str "/reports/bar"
  | Line => str "/reports/line"
  | Pie => str "/reports/pie"
  | Merchants => str "/reports/merchants"
  end.

Definition urlOf (c : chart) (st : state) : value :=
  match c with
  | Bar => barChartUrl st
  | Line => lineChartUrl st
  | Pie => pieChartUrl st
  | Merchants => merchantsChartUrl st
  end.

Definition errorOf (c : chart) (st : state) : bool :=
  match c with
  | Bar => barChartError st
  | Line => lineChartError st
  | Pie => pieChartError st
  | Merchants => merchantsChartError st
  end.

(** [setBarChartUrl], [setLineChartUrl], [setPieChartUrl],
    [setMerchantsChartUrl]. *)
Definition setUrl (c : chart) (x : value) : M (world * state) unit :=
  setState (λ st,
    mkState (if c is Bar then x else barChartUrl st)
            (if c is Line then x else lineChartUrl st)
            (if c is Pie then x else pieChartUrl st)
            (if c is Merchants then x else merchantsChartUrl st)
            (barChartError st) (lineChartError st) (pieChartError st)
            (merchantsChartError st) (isClient st) (modalImage st) (modalTitle st)).

(** [setBarChartError] and its three siblings. *)
Definition setError (c : chart) (x : bool) : M (world * state) unit :=
  setState (λ st,
    mkState (barChartUrl st) (lineChartUrl st) (pieChartUrl st) (merchantsChartUrl st)
            (if c is Bar then x else barChartError st)
            (if c is Line then x else lineChartError st)
            (if c is Pie then x else pieChartError st)
            (if c is Merchants then x else merchantsChartError st)
            (isClient st) (modalImage st) (modalTitle st)).

(** [fetchChart(endpoint, setUrl, setError)]. [objectUrl] is what
    [await res.blob()] followed by [URL.createObjectURL(blob)] gives for
    the body of the answer: the URL handed out, or the rejection of
    [res.blob()] when the body cannot be read. *)
Definition fetchChart (remote : request → fetchResult)
    (objectUrl : payload → completion jstring)
    (endpoint : jstring) (setUrl : value → M (world * state) unit)
    (setError : bool → M (world * state) unit) : M (world * state) unit :=
  tryCatch
    (token ← getItem (str "sb-token");
     match usable token with
     | None => ret ()
     | Some token =>
         '(status, content) ← fetch remote
             (mkRequest (Localhost8000 endpoint) (str "GET") [bearer token] NoBody);
         if ok status then
           url ← lift (objectUrl content);
           setUrl (VStr url);;
           setError false
         else setError true
     end)
    (λ e, emit ConsoleError;; setError true).

(** The call the component makes for one of its four charts. *)
Definition fetchChartOf (remote : request → fetchResult)
    (objectUrl : payload → completion jstring) (c : chart)
  : M (world * state) unit :=
  fetchChart remote objectUrl (endpoint c) (setUrl c) (setError c).

End Charts.

(** ** Home: the effect on mount and the logout button *)

Module HomePage.
Import JS Browser Api.

(** The body of the effect: without a token go to the login page, else
    load the expenses. *)
Definition onMount (E : engine) (remote : request → fetchResult)
  : M (world * Home.state) unit :=
  token ← getItem (str "sb-token");
  match usable token with
  | None => emit (RouterPush (str "/login"))
  | Some _ => Home.loadExpenses E remote
  end.

Definition logout : M (world * Home.state) unit :=
  removeItem (str "sb-token");;
  emit (RouterPush (str "/login")).

End HomePage.

(** ** auth/callback/page.jsx *)

Module AuthCallback.
Import JS Browser Api.

(** What a call to the Supabase client resolves to: the data it carries
    (a session's access token, a user) and its error, if any. *)
Record answer : Type := mkAnswer {
  carried : option jstring;
  failure : option exn
}.

(** [localStorage.setItem(key, text)] *)
Definition setItem (key text : jstring) : M (world * unit) unit :=
  modify (λ '(w, st),
    (mkWorld (<[key := text]> (localStorage w)) (session w) (log w), st)).

(** [if (error) throw error] *)
Definition throwIfFailed (a : answer) : M (world * unit) unit :=
  match failure a with
  | Some e => throw e
  | None => ret ()
  end.

(** [handleAuthCallback]; the three answers are those of [getSession],
    [getUser] and the second [getSession], asked in this order. *)
Definition handleAuthCallback (first user second : answer) : M (world * unit) unit :=
  tryCatch
    (throwIfFailed first;;
     match carried first with
     | Some access_token =>
         setItem (str "sb-token") access_token;;
         emit ConsoleLog;;
         emit (RouterPush (str "/"))
     | None =>
         throwIfFailed user;;
         match carried user with
         | Some _ =>
             throwIfFailed second;;
             match carried second with
             | Some access_token =>
                 setItem (str "sb-token") access_token;;
                 emit ConsoleLog;;
                 emit (RouterPush (str "/"))
             | None => ret ()
             end
         | None =>
             emit ConsoleLog;;
             emit (RouterPush (str "/login"))
         end
     end)
    (λ error, emit ConsoleError;; emit (RouterPush (str "/login"))).

End AuthCallback.

(** ** AiAssistant *)

Module Assistant.
Import JS Browser Api.

(** A message of the conversation: who speaks, and the text. *)
Record message : Type := mkMessage {
  role : jstring;
  text : value
}.

Record state : Type := mkState {
  query : jstring;
  messages : list message;
  loading : bool
}.

Definition setQuery (x : jstring) : M (world * state) unit :=
  setState (λ st, mkState x (messages st) (loading st)).
Definition setMessages (x : list message) : M (world * state) unit :=
  setState (λ st, mkState (query st) x (loading st)).
Definition setLoading (x : bool) : M (world * state) unit :=
  setState (λ st, mkState (query st) (messages st) x).

Definition handleSend (remote : request → fetchResult) : M (world * state) unit :=
  st ← getState;
  if negb (truthy (VStr (trim (query st)))) then ret ()
  else
    let newMessages := messages st ++ [mkMessage (str "user") (VStr (query st))] in
    setMessages newMessages;;
    setQuery [];;
    setLoading true;;
    tryFinally
      (tryCatch
         (token ← getItem (str "sb-token");
          match usable token with
          | None =>
              setMessages (newMessages ++
                [mkMessage (str "ai") (VStr (str "Please login to use the chat assistant."))])
          | Some token =>
              '(status, content) ← fetch remote
                  (mkRequest (Localhost8000 (str "/chat")) (str "POST")
                     [(str "Content-Type", str "application/json"); bearer token]
                     (JsonBody {[ str "message" := VStr (query st) ]}));
              data ← json content;
              response ← lift (getProp data (str "response"));
              setMessages (newMessages ++ [mkMessage (str "ai") response])
          end)
         (λ err,
            setMessages (newMessages ++
              [mkMessage (str "ai") (VStr (str "Error connecting to server."))])))
      (setLoading false).

End Assistant.

(** ** What a run of a handler shows to the outside *)

Module Observations.
Import JS Browser.

(** The requests among the effects, oldest first. *)
Definition requestsOf (l : list effect) : list request :=
  omap (λ e, match e with Fetch r => Some r | _ => None end) l.

(** The pages the router was sent to. *)
Definition navigationsOf (l : list effect) : list jstring :=
  omap (λ e, match e with RouterPush p => Some p | _ => None end) l.

(** The request that [handleSubmit] builds from the state it finds. *)
Definition uploadRequest (token : jstring) (st : Upload.state) : request :=
  mkRequest (Localhost8000 (str "/upload")) (str "POST") [bearer token]
    (FormData (Upload.selectedFile st)
       (if truthy (VStr (Upload.password st)) then Some (Upload.password st) else None)).

Definition deleteRequest (id token : jstring) : request :=
  mkRequest (ApiUrl (str "/expenses/" ++ id)) (str "DELETE") [bearer token] NoBody.

Definition listRequest (token : jstring) : request :=
  mkRequest (Localhost8000 (str "/expenses")) (str "GET") [bearer token] NoBody.

Definition chartRequest (c : Charts.chart) (token : jstring) : request :=
  mkRequest (Localhost8000 (Charts.endpoint c)) (str "GET") [bearer token] NoBody.

Definition chatRequest (query token : jstring) : request :=
  mkRequest (Localhost8000 (str "/chat")) (str "POST")
    [(str "Content-Type", str "application/json"); bearer token]
    (JsonBody {[ str "message" := VStr query ]}).

(** A 2xx answer with a JSON body, and the body. *)
Definition accepted (r : fetchResult) : option value :=
  match r with
  | Response status (Json v) => if ok status then Some v else None
  | _ => None
  end.

End Observations.

(** * Properties *)

(** ** Reading a number *)

Module ParseFacts.
Import JS.

Lemma isDigit_cases c :
  isDigit c = true →
  c ∈ [48; 49; 50; 51; 52; 53; 54; 55; 56; 57]%N.
Proof.
  unfold isDigit. intros H. apply andb_true_iff in H as [H1 H2].
  apply N.leb_le in H1, H2.
  assert (Hc : ∃ k : nat, (k < 10)%nat ∧ c = (48 + N.of_nat k)%N).
  { exists (N.to_nat (c - 48)). split; lia. }
  destruct Hc as (k & Hk & ->).
  do 10 (destruct k as [|k]; [set_solver|]). lia.
Qed.

Lemma takeDigits_app ds rest :
  forallb isDigit ds = true →
  match rest with [] => true | c :: _ => negb (isDigit c) end = true →
  takeDigits (ds ++ rest) = (ds, rest).
Proof.
  intros Hds Hrest. induction ds as [|d ds IH]; simpl.
  - destruct rest as [|c r]; [reflexivity|]. simpl.
    apply negb_true_iff in Hrest. by rewrite Hrest.
  - simpl in Hds. apply andb_true_iff in Hds as [Hd Hds].
    rewrite Hd, (IH Hds). reflexivity.
Qed.

(** A digit starts no sign, no [Infinity] and no white space. *)
Lemma digit_first d ds :
  isDigit d = true →
  takeSign (d :: ds) = (false, d :: ds) ∧
  stripPrefix (str "Infinity") (d :: ds) = None ∧
  trimStart (d :: ds) = d :: ds.
Proof.
  intros Hd. apply isDigit_cases in Hd.
  repeat (apply elem_of_cons in Hd as [->|Hd]; [repeat split; reflexivity|]).
  by apply elem_of_nil in Hd.
Qed.

Lemma scanDecimal_digits ds rest :
  ds ≠ [] → forallb isDigit ds = true → endsNumber rest = true →
  trimStart (ds ++ rest) = ds ++ rest ∧
  scanDecimal (ds ++ rest) = Some (false, LitDecimal (digitsValue ds) 0, rest).
Proof.
  intros Hne Hds Hend.
  destruct ds as [|d ds']; [done|].
  assert (Hd : isDigit d = true) by (simpl in Hds; by apply andb_true_iff in Hds as [? _]).
  destruct (digit_first d (ds' ++ rest) Hd) as (Hsign & Hinf & Htrim).
  split; [exact Htrim|].
  unfold scanDecimal. change ((d :: ds') ++ rest) with (d :: ds' ++ rest).
  rewrite Hsign. unfold scanUnsigned. rewrite Hinf.
  change (d :: ds' ++ rest) with ((d :: ds') ++ rest).
  rewrite takeDigits_app; [|exact Hds|].
  2:{ destruct rest as [|c r]; [reflexivity|]. simpl in Hend.
      by apply andb_true_iff in Hend as [Hend _], Hend as [Hend _]. }
  destruct rest as [|c r]; [reflexivity|].
  simpl in Hend. apply andb_true_iff in Hend as [Hend He].
  apply andb_true_iff in Hend as [_ Hdot].
  apply negb_true_iff in He, Hdot.
  unfold takeFraction, scanExponent. rewrite Hdot, He. reflexivity.
Qed.

Lemma allFrom_spec count : ∀ n P,
  allFrom count n P = true → ∀ k, (n ≤ k < n + Z.of_nat count)%Z → P k = true.
Proof.
  induction count as [|c IH]; intros n P Hall k Hk; [lia|].
  simpl in Hall. apply andb_true_iff in Hall as [Hn Hrest].
  destruct (decide (k = n)) as [->|Hne]; [exact Hn|].
  apply (IH (n + 1)%Z P Hrest). lia.
Qed.

(** Every whole number from 1 to 100000 is a binary64 value above 0 and
    at most 100000. *)
Lemma whole_amounts_in_range n :
  (1 ≤ n ≤ 100000)%Z →
  num_gt (roundLiteral false (LitDecimal n 0)) (num_of_Z 0) = true ∧
  num_le (roundLiteral false (LitDecimal n 0)) (num_of_Z 100000) = true.
Proof.
  intros Hn. apply andb_true_iff.
  apply (allFrom_spec (Z.to_nat 100000) 1
           (λ n, let x := roundLiteral false (LitDecimal n 0) in
                 num_gt x (num_of_Z 0) && num_le x (num_of_Z 100000)));
    [vm_compute; reflexivity | lia].
Qed.

End ParseFacts.

(** ** The loop of [handleConfirm] *)

Module ModalFacts.
Import JS Modal.

(** Two literals of the source that differ. *)
Ltac str_neq :=
  let H := fresh in
  intros H; vm_compute in H; first [discriminate H | tauto | (destruct H; discriminate)].

Lemma cbind_normal {A B} (c : completion A) (k : A → completion B) b :
  c ≫= k = Normal b → ∃ a, c = Normal a ∧ k a = Normal b.
Proof. destruct c as [a|e]; [eauto | discriminate]. Qed.

(** [validateField] by cases on the field name. *)
Lemma validateField_amount v :
  validateField (str "amount") v =
  Normal (if isNaN (parseFloat v) || num_le (parseFloat v) (num_of_Z 0)
          then ({[ str "amount" := VStr msgAmount ]}, ∅)
          else if num_gt (parseFloat v) (num_of_Z 100000)
               then (∅, {[ str "amount" := VStr msgLarge ]})
               else (∅, ∅)).
Proof.
  unfold validateField.
  rewrite (bool_decide_eq_true_2 (str "amount" = str "amount")) by reflexivity.
  rewrite (bool_decide_eq_false_2 (str "amount" = str "sender" ∨ _)) by str_neq.
  rewrite (bool_decide_eq_false_2 (str "amount" = str "transaction_id")) by str_neq.
  destruct (isNaN _ || _); [reflexivity|].
  destruct (num_gt _ _); reflexivity.
Qed.

Lemma validateField_name f v :
  f = str "sender" ∨ f = str "receiver" →
  validateField f v =
  (short ← tooShort v 2;
   Normal (if short : bool then ({[ f := VStr msgName ]}, ∅) else (∅, ∅))).
Proof.
  intros Hf. unfold validateField.
  rewrite (bool_decide_eq_false_2 (f = str "amount")) by (destruct Hf; subst f; str_neq).
  rewrite (bool_decide_eq_true_2 (f = str "sender" ∨ _)) by assumption.
  rewrite (bool_decide_eq_false_2 (f = str "transaction_id")) by (destruct Hf; subst f; str_neq).
  destruct (tooShort v 2) as [[]|e]; reflexivity.
Qed.

Lemma validateField_transaction_id v :
  validateField (str "transaction_id") v =
  (short ← tooShort v 4;
   Normal (if short : bool then ({[ str "transaction_id" := VStr msgTxId ]}, ∅)
           else (∅, ∅))).
Proof.
  unfold validateField.
  rewrite (bool_decide_eq_false_2 (_ = str "amount")) by str_neq.
  rewrite (bool_decide_eq_false_2 (_ = str "sender" ∨ _)) by str_neq.
  rewrite (bool_decide_eq_true_2 (_ = str "transaction_id")) by reflexivity.
  destruct (tooShort v 4) as [[]|e]; reflexivity.
Qed.

Lemma validateField_other f v :
  f ≠ str "amount" → f ≠ str "sender" → f ≠ str "receiver" →
  f ≠ str "transaction_id" →
  validateField f v = Normal (∅, ∅).
Proof.
  intros H1 H2 H3 H4. unfold validateField.
  rewrite (bool_decide_eq_false_2 (f = str "amount")) by assumption.
  rewrite (bool_decide_eq_false_2 (f = str "sender" ∨ _)) by tauto.
  rewrite (bool_decide_eq_false_2 (f = str "transaction_id")) by assumption.
  reflexivity.
Qed.

Lemma tooShort_total v n : textOk v = true → ∃ b, tooShort v n = Normal b.
Proof.
  unfold tooShort, textOk. intros H.
  destruct (truthy v) eqn:Ht; simpl; [|eauto].
  destruct v; try discriminate H. simpl. eauto.
Qed.

Lemma validateField_total f v :
  (f ∈ [str "sender"; str "receiver"; str "transaction_id"] → textOk v = true) →
  ∃ e w, validateField f v = Normal (e, w).
Proof.
  intros Hok.
  destruct (decide (f = str "amount")) as [->|Ha].
  { rewrite validateField_amount.
    destruct (_ || _); [eauto|]. destruct (num_gt _ _); eauto. }
  destruct (decide (f = str "sender" ∨ f = str "receiver")) as [Hn|Hn].
  { rewrite validateField_name by assumption.
    destruct (tooShort_total v 2) as [b ->].
    - apply Hok. destruct Hn as [-> | ->]; set_solver.
    - destruct b; simpl; eauto. }
  destruct (decide (f = str "transaction_id")) as [->|Ht].
  { rewrite validateField_transaction_id.
    destruct (tooShort_total v 4) as [b ->].
    - apply Hok. set_solver.
    - destruct b; simpl; eauto. }
  rewrite validateField_other by tauto. eauto.
Qed.

(** Every message that [validateField] stores under the field is truthy,
    and it stores nothing under another key. *)
Lemma validateField_shape f v e w :
  validateField f v = Normal (e, w) →
  (∀ x, e !! f = Some x → truthy x = true) ∧
  (∀ x, w !! f = Some x → truthy x = true).
Proof.
  destruct (decide (f = str "amount")) as [->|Ha].
  { rewrite validateField_amount.
    destruct (_ || _); [|destruct (num_gt _ _)];
      intros [= <- <-]; split; intros x Hx; simplify_map_eq; reflexivity. }
  destruct (decide (f = str "sender" ∨ f = str "receiver")) as [Hn|Hn].
  { rewrite validateField_name by assumption.
    destruct (tooShort v 2) as [[]|]; simpl; [| |discriminate];
      intros [= <- <-]; split; intros x Hx; simplify_map_eq; reflexivity. }
  destruct (decide (f = str "transaction_id")) as [->|Ht].
  { rewrite validateField_transaction_id.
    destruct (tooShort v 4) as [[]|]; simpl; [| |discriminate];
      intros [= <- <-]; split; intros x Hx; simplify_map_eq; reflexivity. }
  rewrite validateField_other by tauto.
  intros [= <- <-]; split; intros x Hx; simplify_map_eq.
Qed.

Lemma record_lookup f r acc g :
  record f r acc !! g = if decide (f = g) then from_option Some (acc !! g) r else acc !! g.
Proof.
  destruct r as [x|]; simpl.
  - rewrite lookup_insert. reflexivity.
  - destruct (decide (f = g)); reflexivity.
Qed.

Lemma confirmStep_spec d E W f :
  f ≠ str "confidence" →
  confirmStep d (E, W) f =
  match validateField f (get d f) with
  | Normal (e, w) => Normal (record f (e !! f) E, record f (w !! f) W)
  | Throw ex => Throw ex
  end.
Proof.
  intros Hf. unfold confirmStep.
  rewrite bool_decide_eq_true_2 by assumption.
  destruct (validateField f (get d f)) as [[e w]|ex] eqn:Hv; [|reflexivity].
  apply validateField_shape in Hv as [He Hw]. simpl. unfold get.
  destruct (e !! f) as [x|]; destruct (w !! f) as [y|]; simpl;
    rewrite ?(He x), ?(Hw y) by reflexivity; reflexivity.
Qed.

Lemma confirmStep_confidence d acc :
  confirmStep d acc (str "confidence") = Normal acc.
Proof. destruct acc. reflexivity. Qed.

Lemma forEach_cons {A} (f : A → jstring → completion A) k ks acc :
  forEach f (k :: ks) acc = (acc' ← f acc k; forEach f ks acc').
Proof. reflexivity. Qed.

Lemma forEach_confirm_lookup d ks : ∀ E W E' W',
  forEach (confirmStep d) ks (E, W) = Normal (E', W') →
  ∀ f,
    (f ∈ ks → f ≠ str "confidence" →
       E' !! f = from_option Some (E !! f) (fieldError f (get d f)) ∧
       W' !! f = from_option Some (W !! f) (fieldWarning f (get d f))) ∧
    (f ∉ ks ∨ f = str "confidence" → E' !! f = E !! f ∧ W' !! f = W !! f).
Proof.
  induction ks as [|k ks IH]; intros E W E' W' Hrun f.
  { injection Hrun as <- <-. split; [intros Hin; inversion Hin | done]. }
  rewrite forEach_cons in Hrun.
  apply cbind_normal in Hrun as ([E1 W1] & Hstep & Hrest).
  destruct (IH _ _ _ _ Hrest f) as [IHin IHout].
  destruct (decide (k = str "confidence")) as [->|Hk].
  { rewrite confirmStep_confidence in Hstep. injection Hstep as <- <-.
    split.
    - intros Hin Hf. apply IHin; [|assumption].
      apply elem_of_cons in Hin as [->|Hin]; [done | assumption].
    - intros [Hout| ->]; [|apply IHout; by right].
      apply IHout. left. apply not_elem_of_cons in Hout. tauto. }
  rewrite confirmStep_spec in Hstep by assumption.
  assert (HE1 : ∀ g, E1 !! g =
            if decide (k = g) then from_option Some (E !! g) (fieldError k (get d k))
            else E !! g).
  { intros g. unfold fieldError.
    destruct (validateField k (get d k)) as [[e w]|]; [|discriminate].
    injection Hstep as <- <-. apply record_lookup. }
  assert (HW1 : ∀ g, W1 !! g =
            if decide (k = g) then from_option Some (W !! g) (fieldWarning k (get d k))
            else W !! g).
  { intros g. unfold fieldWarning.
    destruct (validateField k (get d k)) as [[e w]|]; [|discriminate].
    injection Hstep as <- <-. apply record_lookup. }
  split.
  - intros Hin Hf.
    destruct (decide (f ∈ ks)) as [Hks|Hks].
    + destruct (IHin Hks Hf) as [-> ->]. rewrite HE1, HW1.
      destruct (decide (k = f)) as [->|]; [|done].
      destruct (fieldError f (get d f)), (fieldWarning f (get d f)); split; reflexivity.
    + apply elem_of_cons in Hin as [->|Hin]; [|done].
      destruct IHout as [-> ->]; [by left|].
      rewrite HE1, HW1. destruct (decide (k = k)); [split; reflexivity | done].
  - intros Hout.
    destruct IHout as [-> ->].
    { destruct Hout as [Hout|Hout]; [left | by right].
      apply not_elem_of_cons in Hout. tauto. }
    rewrite HE1, HW1.
    destruct (decide (k = f)) as [->|]; [|done].
    destruct Hout as [Hout| ->]; [|done].
    apply not_elem_of_cons in Hout. tauto.
Qed.

Lemma forEach_confirm_total d ks : ∀ acc,
  (∀ k, k ∈ ks → k ≠ str "confidence" →
        ∃ e w, validateField k (get d k) = Normal (e, w)) →
  ∃ acc', forEach (confirmStep d) ks acc = Normal acc'.
Proof.
  induction ks as [|k ks IH]; intros [E W] Hok; [simpl; eauto|].
  rewrite forEach_cons. destruct (decide (k = str "confidence")) as [->|Hk].
  - rewrite confirmStep_confidence. simpl. apply IH.
    intros k Hin. apply Hok. by right.
  - rewrite confirmStep_spec by assumption.
    destruct (Hok k) as (e & w & ->); [by left | assumption |].
    simpl. apply IH. intros k' Hin. apply Hok. by right.
Qed.

Lemma forEach_confirm_throws d ks : ∀ acc k e,
  k ∈ ks → k ≠ str "confidence" → validateField k (get d k) = Throw e →
  ∃ e', forEach (confirmStep d) ks acc = Throw e'.
Proof.
  induction ks as [|k0 ks IH]; intros acc k e Hin Hk Hv; [inversion Hin|].
  rewrite forEach_cons.
  destruct (confirmStep d acc k0) as [acc1|e1] eqn:Hstep; [|simpl; eauto].
  simpl. apply elem_of_cons in Hin as [->|Hin]; [|eauto].
  destruct acc as [E W]. rewrite confirmStep_spec, Hv in Hstep by assumption.
  discriminate.
Qed.

Lemma elem_of_Object_keys (d : gmap jstring value) f :
  f ∈ Object_keys d ↔ is_Some (d !! f).
Proof.
  unfold Object_keys. rewrite list_elem_of_fmap. split.
  - intros ([k v] & -> & Hin). apply elem_of_map_to_list in Hin. eauto.
  - intros [v Hv]. exists (f, v). split; [done|]. by apply elem_of_map_to_list.
Qed.

Lemma Object_keys_empty (d : gmap jstring value) :
  (length (Object_keys d) =? 0)%nat = bool_decide (d = ∅).
Proof.
  unfold Object_keys. rewrite length_fmap.
  destruct (decide (d = ∅)) as [->|Hne].
  - rewrite map_to_list_empty. by rewrite bool_decide_eq_true_2.
  - rewrite bool_decide_eq_false_2 by assumption.
    apply Nat.eqb_neq. intros Hlen. apply Hne.
    apply map_to_list_empty_iff. by apply nil_length_inv.
Qed.

Lemma wellTyped_textOk d f :
  wellTyped d = true →
  f ∈ [str "sender"; str "receiver"; str "transaction_id"] →
  textOk (get d f) = true.
Proof.
  unfold wellTyped. rewrite forallb_forall. intros H Hin.
  apply H. by apply list_elem_of_In.
Qed.

Lemma forEach_confirm_run d ks E W E' W' :
  forEach (confirmStep d) ks (E, W) = Normal (E', W') →
  ∀ k, k ∈ ks → k ≠ str "confidence" →
       ∃ e w, validateField k (get d k) = Normal (e, w).
Proof.
  intros Hrun k Hin Hk.
  destruct (validateField k (get d k)) as [[e w]|ex] eqn:Hv; [eauto|].
  destruct (forEach_confirm_throws d ks (E, W) k ex Hin Hk Hv) as [e' He'].
  congruence.
Qed.

(** [handleConfirm] either throws, with nothing set and nothing handed
    over, or replaces both maps by the validation of the working copy. *)
Lemma handleConfirm_cases st d :
  editedData st = Some d →
  (∃ e, handleConfirm st = Throw e) ∨
  (∃ E W,
    handleConfirm st =
      Normal (mkState (Some d) (editingField st) E W,
              if bool_decide (E = ∅) then Some d else None) ∧
    (∀ f, E !! f = revalidatedError d f) ∧
    (∀ f, W !! f = revalidatedWarning d f)).
Proof.
  intros Hd. unfold handleConfirm. rewrite Hd.
  destruct (forEach (confirmStep d) (Object_keys d) (∅, ∅)) as [[E W]|e] eqn:Hrun;
    [right | left; eauto].
  exists E, W. split.
  { simpl. unfold setWarnings, setValidationErrors; simpl. rewrite Hd.
    by rewrite Object_keys_empty. }
  split; intros f;
    destruct (forEach_confirm_lookup _ _ _ _ _ _ Hrun f) as [Hin Hout];
    unfold revalidatedError, revalidatedWarning; case_bool_decide as Hc.
  - destruct Hout as [-> _]; [by right | done].
  - destruct (d !! f) as [v|] eqn:Hf; simpl.
    + destruct Hin as [-> _]; [apply elem_of_Object_keys; eauto | done |].
      unfold get. rewrite Hf. simpl. by destruct (fieldError f v).
    + destruct Hout as [-> _]; [|done].
      left. rewrite elem_of_Object_keys, Hf. by intros [? ?].
  - destruct Hout as [_ ->]; [by right | done].
  - destruct (d !! f) as [v|] eqn:Hf; simpl.
    + destruct Hin as [_ ->]; [apply elem_of_Object_keys; eauto | done |].
      unfold get. rewrite Hf. simpl. by destruct (fieldWarning f v).
    + destruct Hout as [_ ->]; [|done].
      left. rewrite elem_of_Object_keys, Hf. by intros [? ?].
Qed.

Lemma handleConfirm_total st d :
  editedData st = Some d → wellTyped d = true →
  ∃ r, handleConfirm st = Normal r.
Proof.
  intros Hd Hty. unfold handleConfirm. rewrite Hd.
  destruct (forEach_confirm_total d (Object_keys d) (∅, ∅)) as [[E W] ->].
  { intros k _ _. apply validateField_total. intros Hin.
    by apply wellTyped_textOk. }
  simpl. eauto.
Qed.

Lemma handleConfirm_spec st d :
  editedData st = Some d → wellTyped d = true →
  ∃ E W,
    handleConfirm st =
      Normal (mkState (Some d) (editingField st) E W,
              if bool_decide (E = ∅) then Some d else None) ∧
    (∀ f, E !! f = revalidatedError d f) ∧
    (∀ f, W !! f = revalidatedWarning d f).
Proof.
  intros Hd Hty.
  destruct (handleConfirm_cases st d Hd) as [[e He]|H]; [|exact H].
  destruct (handleConfirm_total st d Hd Hty) as [r Hr]. congruence.
Qed.

Lemma fieldError_confidence v : fieldError (str "confidence") v = None.
Proof.
  unfold fieldError. rewrite validateField_other by str_neq. apply lookup_empty.
Qed.

(** The error set of a revalidation is empty exactly when every field is valid. *)
Lemma revalidated_empty (d E : gmap jstring value) :
  (∀ f, E !! f = revalidatedError d f) → (E = ∅ ↔ allValid d).
Proof.
  intros HE. split.
  - intros -> f v Hf Hv. specialize (HE f). rewrite lookup_empty in HE.
    unfold revalidatedError in HE.
    rewrite bool_decide_eq_false_2, Hv in HE by assumption. done.
  - intros Hall. apply map_eq. intros f. rewrite HE, lookup_empty.
    unfold revalidatedError. case_bool_decide; [done|].
    destruct (d !! f) as [v|] eqn:Hv; [|done]. simpl. by apply Hall.
Qed.

(** Edits that come from the input element carry a string, and
    [validateField] does not throw on a string. *)
Lemma validateField_string f s : ∃ e w, validateField f (VStr s) = Normal (e, w).
Proof. apply validateField_total. reflexivity. Qed.

Lemma handleFieldEdit_string f s st :
  (handleFieldEdit f (VStr s) st).1 =
  mkState (Some (<[f := VStr s]> (spread (editedData st)))) (editingField st)
          (<[f := default VUndefined (fieldError f (VStr s))]> (validationErrors st))
          (<[f := default VUndefined (fieldWarning f (VStr s))]> (warnings st)).
Proof.
  unfold handleFieldEdit, fieldError, fieldWarning.
  destruct (validateField_string f s) as (e & w & ->). reflexivity.
Qed.

Lemma handleFieldEdit_consistent f s st :
  consistent st → consistent (handleFieldEdit f (VStr s) st).1.
Proof.
  intros Hc g x. rewrite handleFieldEdit_string. simpl. intros Hx Ht.
  exists (<[f := VStr s]> (spread (editedData st))).
  destruct (decide (f = g)) as [->|Hne].
  - rewrite lookup_insert_eq in Hx. injection Hx as <-.
    exists (VStr s). rewrite lookup_insert_eq. split; [done|]. split; [done|].
    destruct (fieldError g (VStr s)); [done | discriminate].
  - rewrite lookup_insert_ne in Hx by assumption.
    destruct (Hc g x Hx Ht) as (d & v & Hd & Hv & Herr).
    exists v. rewrite Hd. simpl. rewrite lookup_insert_ne by assumption. done.
Qed.

Lemma consistent_enabled st d :
  consistent st → editedData st = Some d → allValid d →
  confirmDisabled false st = false.
Proof.
  intros Hc Hd Hall. unfold confirmDisabled. simpl.
  apply not_true_iff_false. intros Hex.
  apply existsb_exists in Hex as (f & Hin & Ht).
  apply list_elem_of_In, elem_of_Object_keys in Hin as [x Hx].
  unfold get in Ht. rewrite Hx in Ht. simpl in Ht.
  destruct (Hc f x Hx Ht) as (d' & v & Hd' & Hv & Herr).
  assert (d' = d) as -> by congruence.
  destruct (decide (f = str "confidence")) as [->|Hf].
  - rewrite fieldError_confidence in Herr. discriminate.
  - rewrite (Hall f v Hf Hv) in Herr. discriminate.
Qed.

(** Comparisons of binary64 values. *)
Lemma SFcompare_antisym x y :
  SFcompare y x = CompOpp <$> SFcompare x y.
Proof.
  destruct x as [sx|sx| |sx mx ex], y as [sy|sy| |sy my ey]; simpl;
    try reflexivity; try (destruct sx; reflexivity); try (destruct sy; reflexivity);
    try (destruct sx, sy; reflexivity).
  destruct sx, sy; simpl; try reflexivity;
    rewrite (Z.compare_antisym ex ey); destruct (ex ?= ey)%Z; simpl; try reflexivity;
    change (Pos.compare_cont Eq my mx) with (Pos.compare my mx);
    change (Pos.compare_cont Eq mx my) with (Pos.compare mx my);
    rewrite (Pos.compare_antisym mx my); destruct (mx ?= my)%positive; reflexivity.
Qed.

Lemma num_le_not_gt x y : num_le x y = true → num_gt x y = false.
Proof.
  unfold num_le, num_gt, SFleb, SFltb. rewrite (SFcompare_antisym x y).
  destruct (SFcompare x y) as [[]|]; simpl; congruence.
Qed.

Lemma num_gt_not_le x y : num_gt x y = true → num_le x y = false.
Proof.
  unfold num_le, num_gt, SFleb, SFltb. rewrite (SFcompare_antisym x y).
  destruct (SFcompare x y) as [[]|]; simpl; congruence.
Qed.

Lemma num_gt_not_NaN x y : num_gt x y = true → isNaN x = false.
Proof. destruct x; try reflexivity. destruct y; discriminate. Qed.

(** Validity of a concrete copy can be read off a run of [handleConfirm]. *)
Lemma allValid_by_run st d :
  editedData st = Some d → wellTyped d = true →
  handedOver (handleConfirm st) = Some d → allValid d.
Proof.
  intros Hd Hty Hrun.
  destruct (handleConfirm_spec st d Hd Hty) as (E & W & HE1 & HE & _).
  rewrite HE1 in Hrun. simpl in Hrun.
  apply (revalidated_empty d E HE). by case_bool_decide.
Qed.

Lemma consistent_fresh d : consistent (mkState (Some d) None ∅ ∅).
Proof. intros f x Hx. simpl in Hx. by rewrite lookup_empty in Hx. Qed.

(** Opening the modal on a new extraction result starts from no errors. *)
(** Shows that a map written out in full has no key that a prototype
    answers for. *)
Ltac plain_keys :=
  let k := fresh "k" in
  let Hk := fresh "Hk" in
  intros k Hk; unfold ModalEvents.inheritedNames in Hk;
  repeat (apply elem_of_cons in Hk as [->|Hk]; [vm_compute; reflexivity|]);
  by apply elem_of_nil in Hk.

(** The sample result has no key that a prototype answers for. *)
Lemma plainKeys_extracted : ModalEvents.plainKeys Samples.extracted.
Proof. plain_keys. Qed.

Lemma onExtractedData_consistent v st :
  truthy v = true → consistent (onExtractedData v st).
Proof. intros Hv. unfold onExtractedData. rewrite Hv. apply consistent_fresh. Qed.

End ModalFacts.

(** ** The field validator and the confirmation state *)

Module ModalProperties.
Import JS Modal ModalFacts.

(** C7. The concrete outcomes of the field validator: ["abc"] is not an
    amount; ["99.50"] passes without a warning; ["250000"] gets the
    large-amount warning and no error; a one-letter sender and a
    three-character transaction id are too short, a four-character id is
    not; [date], [time] and [category] are valid whatever their value. *)
Theorem validateField_outcomes :
  validateField (str "amount") (VStr (str "abc")) =
    Normal ({[ str "amount" := VStr (str "Amount must be a positive number") ]}, ∅) ∧
  validateField (str "amount") (VStr (str "99.50")) = Normal (∅, ∅) ∧
  validateField (str "amount") (VStr (str "250000")) =
    Normal (∅, {[ str "amount" := VStr (str "Large amount detected - please verify") ]}) ∧
  validateField (str "sender") (VStr (str "A")) =
    Normal ({[ str "sender" := VStr (str "Name must be at least 2 characters") ]}, ∅) ∧
  validateField (str "transaction_id") (VStr (str "123")) =
    Normal ({[ str "transaction_id" :=
                 VStr (str "Transaction ID must be at least 4 characters") ]}, ∅) ∧
  validateField (str "transaction_id") (VStr (str "1234")) = Normal (∅, ∅) ∧
  (∀ v, validateField (str "date") v = Normal (∅, ∅)) ∧
  (∀ v, validateField (str "time") v = Normal (∅, ∅)) ∧
  (∀ v, validateField (str "category") v = Normal (∅, ∅)).
Proof.
  repeat split; try (vm_compute; reflexivity);
    intros v; apply validateField_other; str_neq.
Qed.

(** C10. Only the leading numeric prefix of an amount is read: when the
    longest numeric literal at the start of the string (after leading
    white space) denotes a number above 0 and at most 100000, whatever
    follows it, the validator reports neither an error nor a warning. In
    particular a run of digits worth 1 to 100000 passes whatever text
    comes after it, as long as the text does not extend the number. *)
Theorem amount_reads_leading_number (s : jstring) :
  (∀ neg l rest,
     scanDecimal (trimStart s) = Some (neg, l, rest) →
     num_gt (roundLiteral neg l) (num_of_Z 0) = true →
     num_le (roundLiteral neg l) (num_of_Z 100000) = true →
     parseFloat (VStr s) = roundLiteral neg l ∧
     validateField (str "amount") (VStr s) = Normal (∅, ∅)) ∧
  (∀ ds rest,
     s = ds ++ rest → ds ≠ [] → forallb isDigit ds = true → endsNumber rest = true →
     (1 ≤ digitsValue ds ≤ 100000)%Z →
     validateField (str "amount") (VStr s) = Normal (∅, ∅)).
Proof.
  assert (Hgen : ∀ neg l rest,
     scanDecimal (trimStart s) = Some (neg, l, rest) →
     num_gt (roundLiteral neg l) (num_of_Z 0) = true →
     num_le (roundLiteral neg l) (num_of_Z 100000) = true →
     parseFloat (VStr s) = roundLiteral neg l ∧
     validateField (str "amount") (VStr s) = Normal (∅, ∅)).
  { intros neg l rest Hscan Hpos Hle.
    assert (Hparse : parseFloat (VStr s) = roundLiteral neg l).
    { simpl. unfold parseFloatString. by rewrite Hscan. }
    split; [exact Hparse|].
    rewrite validateField_amount, Hparse.
    rewrite (num_gt_not_NaN _ _ Hpos), (num_gt_not_le _ _ Hpos), (num_le_not_gt _ _ Hle).
    reflexivity. }
  split; [exact Hgen|].
  intros ds rest -> Hne Hds Hend Hval.
  destruct (ParseFacts.scanDecimal_digits ds rest Hne Hds Hend) as [Htrim Hscan].
  destruct (ParseFacts.whole_amounts_in_range _ Hval) as [Hpos Hle].
  rewrite <- Htrim in Hscan.
  exact (proj2 (Hgen false _ rest Hscan Hpos Hle)).
Qed.

Lemma amount_reads_leading_number_witness :
  (parseFloat (VStr (str "12abc")) = num_of_Z 12 ∧
   validateField (str "amount") (VStr (str "12abc")) = Normal (∅, ∅)) ∧
  validateField (str "amount") (VStr (str "99999 rupees")) = Normal (∅, ∅).
Proof.
  split.
  - exact (proj1 (amount_reads_leading_number (str "12abc"))
             false (LitDecimal 12 0) (str "abc") eq_refl eq_refl eq_refl).
  - apply (proj2 (amount_reads_leading_number (str "99999 rupees"))
             (str "99999") (str " rupees")); [reflexivity | discriminate | reflexivity .. |].
    vm_compute. split; discriminate.
Defined.

(** C8. Editing a field twice with the same value leaves the working
    copy, the error map and the warning map as one edit leaves them. *)
Theorem handleFieldEdit_idempotent st field value :
  handleFieldEdit field value (handleFieldEdit field value st).1 =
  handleFieldEdit field value st.
Proof.
  unfold handleFieldEdit.
  destruct (validateField field value) as [[errors warns]|e]; simpl;
    unfold setWarnings, setValidationErrors, setEditedData; simpl;
    rewrite ?insert_insert_eq; reflexivity.
Qed.

(** C2. Confirming revalidates the whole working copy: the new error and
    warning maps hold, for every field but [confidence], what the
    validator says of the field's current value and nothing else, so they
    do not depend on the maps that were there; the copy is handed over
    only after that, when the new error map is empty. The copy is a
    record of the extraction: none of its keys is a name that every
    object answers through its prototype. *)
Theorem confirm_revalidates_every_field st d :
  editedData st = Some d → wellTyped d = true → ModalEvents.plainKeys d →
  ∃ st' call,
    handleConfirm st = Normal (st', call) ∧
    editedData st' = Some d ∧
    (∀ f, validationErrors st' !! f = revalidatedError d f) ∧
    (∀ f, warnings st' !! f = revalidatedWarning d f) ∧
    (∀ f v,
       f ∈ [str "amount"; str "sender"; str "receiver"; str "date"; str "time";
            str "transaction_id"; str "category"] →
       d !! f = Some v →
       validationErrors st' !! f = fieldError f v ∧
       warnings st' !! f = fieldWarning f v) ∧
    validationErrors st' !! str "confidence" = None ∧
    (∀ stale, editedData stale = Some d →
       ∃ r, handleConfirm stale = Normal (r, call) ∧
            validationErrors r = validationErrors st' ∧ warnings r = warnings st') ∧
    call = (if bool_decide (validationErrors st' = ∅) then Some d else None).
Proof.
  intros Hd Hty _.
  destruct (handleConfirm_spec st d Hd Hty) as (E & W & Hrun & HE & HW).
  eexists _, _. split; [exact Hrun|]. simpl.
  split; [reflexivity|]. split; [exact HE|]. split; [exact HW|].
  split; [|split; [|split; [|reflexivity]]].
  - intros f v Hf Hv. rewrite HE, HW. unfold revalidatedError, revalidatedWarning.
    rewrite bool_decide_eq_false_2, Hv; [done|].
    intros ->. revert Hf. apply (bool_decide_eq_false_1 _). vm_compute. reflexivity.
  - rewrite HE. unfold revalidatedError. by rewrite bool_decide_eq_true_2.
  - intros stale Hstale.
    destruct (handleConfirm_spec stale d Hstale Hty) as (E2 & W2 & Hrun2 & HE2 & HW2).
    assert (E2 = E) as -> by (apply map_eq; intros f; by rewrite HE, HE2).
    assert (W2 = W) as -> by (apply map_eq; intros f; by rewrite HW, HW2).
    eexists. split; [exact Hrun2|]. done.
Qed.

Lemma confirm_revalidates_every_field_witness :
  let stale := mkState (Some Samples.largeAmountShortSender) None
                 {[ str "date" := VStr (str "left over") ]} ∅ in
  ∃ st' call,
    handleConfirm stale = Normal (st', call) ∧
    validationErrors st' !! str "sender" =
      Some (VStr (str "Name must be at least 2 characters")) ∧
    validationErrors st' !! str "date" = None ∧
    warnings st' !! str "amount" =
      Some (VStr (str "Large amount detected - please verify")) ∧
    call = None.
Proof.
  intros stale.
  destruct (confirm_revalidates_every_field stale Samples.largeAmountShortSender
              eq_refl eq_refl ltac:(plain_keys))
    as (st' & call & Hrun & _ & HE & HW & _).
  exists st', call. split; [exact Hrun|].
  rewrite !HE, HW.
  assert (Hcall : handedOver (handleConfirm stale) = None) by (vm_compute; reflexivity).
  rewrite Hrun in Hcall.
  repeat split; [vm_compute; reflexivity .. | exact Hcall].
Defined.

(** C4. The working copy is handed over for saving exactly when the error
    map that the revalidation produced is empty; a copy whose amount is
    ["-5"] gets the amount error and is never handed over. The copy is a
    record of the extraction: none of its keys is a name that every
    object answers through its prototype. *)
Theorem confirm_hands_over_iff_no_errors st d :
  editedData st = Some d → ModalEvents.plainKeys d →
  (∀ st' call,
     handleConfirm st = Normal (st', call) →
     (call = Some d ↔ validationErrors st' = ∅) ∧
     (call = None ↔ validationErrors st' ≠ ∅)) ∧
  (wellTyped d = true →
     ∃ st' call,
       handleConfirm st = Normal (st', call) ∧
       (call = Some d ↔ validationErrors st' = ∅) ∧
       (validationErrors st' = ∅ ↔ allValid d)) ∧
  (d !! str "amount" = Some (VStr (str "-5")) →
     handedOver (handleConfirm st) = None ∧
     (wellTyped d = true →
        ∃ st', handleConfirm st = Normal (st', None) ∧
               validationErrors st' !! str "amount" =
                 Some (VStr (str "Amount must be a positive number")))).
Proof.
  intros Hd _. split; [|split].
  - intros st' call Hrun.
    destruct (handleConfirm_cases st d Hd) as [[e He]|(E & W & HEW & _)]; [congruence|].
    rewrite HEW in Hrun. injection Hrun as <- <-. simpl.
    case_bool_decide; split; split; try done; congruence.
  - intros Hty.
    destruct (handleConfirm_spec st d Hd Hty) as (E & W & Hrun & HE & HW).
    eexists _, _. split; [exact Hrun|]. simpl.
    split; [|by apply revalidated_empty].
    case_bool_decide; split; try done; congruence.
  - intros Hamount.
    assert (Herr : ∀ E : gmap jstring value,
               (∀ f, E !! f = revalidatedError d f) →
               E !! str "amount" = Some (VStr (str "Amount must be a positive number"))).
    { intros E HE. rewrite HE. unfold revalidatedError.
      rewrite bool_decide_eq_false_2 by str_neq. rewrite Hamount. reflexivity. }
    assert (Hne : ∀ E : gmap jstring value,
               (∀ f, E !! f = revalidatedError d f) → bool_decide (E = ∅) = false).
    { intros E HE. apply bool_decide_eq_false_2. intros ->.
      specialize (Herr ∅ HE). by rewrite lookup_empty in Herr. }
    split.
    + destruct (handleConfirm_cases st d Hd) as [[e ->]|(E & W & -> & HE & _)];
        [reflexivity|]. simpl. by rewrite (Hne E HE).
    + intros Hty.
      destruct (handleConfirm_spec st d Hd Hty) as (E & W & Hrun & HE & HW).
      rewrite (Hne E HE) in Hrun. eexists. split; [exact Hrun|]. simpl. by apply Herr.
Qed.

Lemma confirm_hands_over_iff_no_errors_witness :
  handedOver (handleConfirm (Samples.reviewingState Samples.negativeAmount)) = None ∧
  ∃ st', handleConfirm (Samples.reviewingState Samples.negativeAmount) = Normal (st', None) ∧
         validationErrors st' !! str "amount" =
           Some (VStr (str "Amount must be a positive number")).
Proof.
  destruct (confirm_hands_over_iff_no_errors
              (Samples.reviewingState Samples.negativeAmount) Samples.negativeAmount eq_refl
              ltac:(plain_keys))
    as (_ & _ & H).
  destruct (H eq_refl) as [Hnone Hset]. split; [exact Hnone|]. exact (Hset eq_refl).
Defined.

(** C5. Whatever was typed before, only the working copy at the time of
    the click decides: after an edit of field A, an edit of field B and a
    second edit of field A (each with the text of the input element), a
    copy whose fields are all valid is handed over for saving, with an
    empty error map; and when the errors on display belonged to the copy
    before the edits, the button is enabled. Neither the edited fields nor
    any key of the copy is a name that every object answers through its
    prototype. *)
Theorem confirm_after_fixing_edit st (A B a b a' : jstring) :
  let st1 := (handleFieldEdit A (VStr a) st).1 in
  let st2 := (handleFieldEdit B (VStr b) st1).1 in
  let st3 := (handleFieldEdit A (VStr a') st2).1 in
  let d := <[A := VStr a']> (<[B := VStr b]> (<[A := VStr a]> (spread (editedData st)))) in
  A ∉ ModalEvents.inheritedNames → B ∉ ModalEvents.inheritedNames →
  ModalEvents.plainKeys d →
  wellTyped d = true → allValid d →
  editedData st3 = Some d ∧
  (∃ st', handleConfirm st3 = Normal (st', Some d) ∧ validationErrors st' = ∅) ∧
  (consistent st → confirmDisabled false st3 = false).
Proof.
  intros st1 st2 st3 d _ _ _ Hty Hall.
  assert (Hd : editedData st3 = Some d).
  { unfold st3, st2, st1, d. by rewrite !handleFieldEdit_string. }
  split; [exact Hd|]. split.
  - destruct (handleConfirm_spec st3 d Hd Hty) as (E & W & Hrun & HE & HW).
    assert (E = ∅) as -> by (by apply (revalidated_empty d)).
    rewrite bool_decide_eq_true_2 in Hrun by reflexivity.
    eexists. split; [exact Hrun | reflexivity].
  - intros Hc. apply (consistent_enabled st3 d); [|exact Hd|exact Hall].
    unfold st3, st2, st1. by do 3 apply handleFieldEdit_consistent.
Qed.

Lemma confirm_after_fixing_edit_witness :
  let st := Samples.reviewingState Samples.extracted in
  let st1 := (handleFieldEdit (str "amount") (VStr (str "abc")) st).1 in
  let st2 := (handleFieldEdit (str "sender") (VStr (str "Ravi")) st1).1 in
  let st3 := (handleFieldEdit (str "amount") (VStr (str "120")) st2).1 in
  let d := <[str "amount" := VStr (str "120")]>
             (<[str "sender" := VStr (str "Ravi")]>
                (<[str "amount" := VStr (str "abc")]> (spread (editedData st)))) in
  fieldError (str "amount") (VStr (str "abc")) =
    Some (VStr (str "Amount must be a positive number")) ∧
  editedData st3 = Some d ∧
  (∃ st', handleConfirm st3 = Normal (st', Some d) ∧ validationErrors st' = ∅) ∧
  confirmDisabled false st3 = false.
Proof.
  intros st st1 st2 st3 d.
  split; [vm_compute; reflexivity|].
  assert (Hty : wellTyped d = true) by (vm_compute; reflexivity).
  assert (Hall : allValid d).
  { apply (allValid_by_run (mkState (Some d) None ∅ ∅));
      [reflexivity | exact Hty | vm_compute; reflexivity]. }
  assert (Hplain : ModalEvents.plainKeys d) by plain_keys.
  destruct (confirm_after_fixing_edit st (str "amount") (str "sender")
              (str "abc") (str "Ravi") (str "120")
              ltac:(apply (bool_decide_unpack _); vm_compute; reflexivity)
              ltac:(apply (bool_decide_unpack _); vm_compute; reflexivity)
              Hplain Hty Hall)
    as (Hd & Hrun & Hbutton).
  split; [exact Hd|]. split; [exact Hrun|].
  apply Hbutton. apply consistent_fresh.
Defined.

(** C6, as the code has it. A copy whose amount is ["150000"] gets the
    large-amount warning and no amount error, and the warning does not
    block: the copy is handed over for saving exactly when no other field
    has an error. The copy is a record of the extraction: none of its
    keys is a name that every object answers through its prototype. *)
Theorem large_amount_warns_without_blocking st d :
  editedData st = Some d → wellTyped d = true → ModalEvents.plainKeys d →
  d !! str "amount" = Some (VStr (str "150000")) →
  ∃ st' call,
    handleConfirm st = Normal (st', call) ∧
    warnings st' !! str "amount" =
      Some (VStr (str "Large amount detected - please verify")) ∧
    validationErrors st' !! str "amount" = None ∧
    (call = Some d ↔
     ∀ f v, f ≠ str "amount" → f ≠ str "confidence" → d !! f = Some v →
            fieldError f v = None).
Proof.
  intros Hd Hty _ Hamount.
  destruct (handleConfirm_spec st d Hd Hty) as (E & W & Hrun & HE & HW).
  eexists _, _. split; [exact Hrun|]. simpl.
  assert (Hlarge : fieldError (str "amount") (VStr (str "150000")) = None)
    by (vm_compute; reflexivity).
  split; [|split].
  - rewrite HW. unfold revalidatedWarning.
    rewrite bool_decide_eq_false_2 by str_neq. rewrite Hamount. reflexivity.
  - rewrite HE. unfold revalidatedError.
    rewrite bool_decide_eq_false_2 by str_neq. rewrite Hamount. exact Hlarge.
  - pose proof (revalidated_empty d E HE) as Hiff.
    assert (Hall : allValid d ↔
              ∀ f v, f ≠ str "amount" → f ≠ str "confidence" → d !! f = Some v →
                     fieldError f v = None).
    { split.
      - intros Hall f v _ Hc Hv. by apply Hall.
      - intros Hrest f v Hc Hv. destruct (decide (f = str "amount")) as [->|Ha].
        + rewrite Hamount in Hv. injection Hv as <-. exact Hlarge.
        + by apply Hrest. }
    rewrite <- Hall, <- Hiff. case_bool_decide; split; try done; congruence.
Qed.

Lemma large_amount_warns_without_blocking_witness :
  ∃ st',
    handleConfirm (Samples.reviewingState Samples.largeAmount) =
      Normal (st', Some Samples.largeAmount) ∧
    warnings st' !! str "amount" =
      Some (VStr (str "Large amount detected - please verify")) ∧
    validationErrors st' !! str "amount" = None.
Proof.
  destruct (large_amount_warns_without_blocking
              (Samples.reviewingState Samples.largeAmount) Samples.largeAmount
              eq_refl eq_refl ltac:(plain_keys) eq_refl)
    as (st' & call & Hrun & Hw & He & _).
  exists st'. split; [|split; assumption].
  assert (Hcall : handedOver (handleConfirm (Samples.reviewingState Samples.largeAmount))
                  = Some Samples.largeAmount) by (vm_compute; reflexivity).
  rewrite Hrun in Hcall. change (call = Some Samples.largeAmount) in Hcall.
  rewrite Hrun, Hcall. reflexivity.
Defined.

(** C6 as the specification words it does not hold: with an amount of
    ["150000"] and a one-letter sender, the warning is set, the amount has
    no error, and the copy is not handed over. *)
Lemma large_amount_blocked_by_other_field :
  Samples.largeAmountShortSender !! str "amount" = Some (VStr (str "150000")) ∧
  wellTyped Samples.largeAmountShortSender = true ∧
  handleConfirm (Samples.reviewingState Samples.largeAmountShortSender) =
    Normal (mkState (Some Samples.largeAmountShortSender) None
              {[ str "sender" := VStr (str "Name must be at least 2 characters") ]}
              {[ str "amount" := VStr (str "Large amount detected - please verify") ]},
            None).
Proof. repeat split; vm_compute; reflexivity. Qed.

End ModalProperties.

(** ** Remote calls *)

Module SessionFacts.
Import JS Browser Api.

(** Unfolds the plumbing of a handler. *)
Tactic Notation "run" :=
  cbv [mbind mret M_bind M_ret bind ret throw lift gets modify tryCatch tryFinally
       emit getItem removeItem getSession setState getState fetch json
       Upload.setStatus Upload.setPassword Upload.setRequiresPassword
       Upload.setSelectedFile Upload.setMessage Upload.setExtractedData
       Upload.setShowConfirmation Upload.setIsSaving
       Home.setExpenses Home.setBackendConnected Home.setLoading].

Tactic Notation "run" "in" hyp(H) :=
  cbv [mbind mret M_bind M_ret bind ret throw lift gets modify tryCatch tryFinally
       emit getItem removeItem getSession setState getState fetch json
       Upload.setStatus Upload.setPassword Upload.setRequiresPassword
       Upload.setSelectedFile Upload.setMessage Upload.setExtractedData
       Upload.setShowConfirmation Upload.setIsSaving
       Home.setExpenses Home.setBackendConnected Home.setLoading] in H.

(** A 401 on the upload clears the stored token and goes to the login
    page; one request was sent. *)
Lemma handleSubmit_401 remote w st token content :
  usable (localStorage w !! str "sb-token") = Some token →
  (∀ r, remote r = Response 401 content) →
  ∃ r st',
    Upload.handleSubmit remote (w, st) =
      (Normal (), (mkWorld (delete (str "sb-token") (localStorage w)) (session w)
                     (log w ++ [Fetch r; RouterPush (str "/login")]), st')).
Proof.
  intros Htok Hremote. unfold Upload.handleSubmit. run. simpl.
  rewrite Htok, Hremote. simpl.
  eexists _, _. rewrite <- app_assoc. reflexivity.
Qed.

(** So does a 401 on the listing. *)
Lemma loadExpenses_401 E remote w st token content :
  usable (localStorage w !! str "sb-token") = Some token →
  (∀ r, remote r = Response 401 content) →
  ∃ r st',
    Home.loadExpenses E remote (w, st) =
      (Normal (), (mkWorld (delete (str "sb-token") (localStorage w)) (session w)
                     (log w ++ [Fetch r; ConsoleError; ConsoleError;
                                RouterPush (str "/login")]), st')).
Proof.
  intros Htok Hremote. unfold Home.loadExpenses, fetchExpenses. run. simpl.
  rewrite Htok, Hremote. simpl.
  eexists _, _. rewrite <- !app_assoc. reflexivity.
Qed.

(** A 401 on the save is reported like any other failure: the token and
    the session stay, nothing navigates. *)
Lemma handleConfirmTransaction_401 E remote w st d token content :
  session w = Some token →
  (∀ r, remote r = Response 401 content) →
  ∃ st',
    Upload.handleConfirmTransaction E remote d (w, st) =
      (Normal (), (mkWorld (localStorage w) (session w)
                     (log w ++ [ConsoleLog; Fetch (Upload.confirmRequest d token);
                                ConsoleError]), st')) ∧
    Upload.message st' = VStr (Upload.msgSaveFailed ++ str "Unauthorized") ∧
    Upload.showConfirmation st' = Upload.showConfirmation st.
Proof.
  destruct w as [ls sess lg]. simpl. intros -> Hremote.
  unfold Upload.handleConfirmTransaction, confirmTransaction. run. simpl.
  rewrite Hremote. simpl.
  eexists. rewrite <- !app_assoc. split; [reflexivity|]. split; reflexivity.
Qed.

(** And so is a 401 on the delete. *)
Lemma handleDelete_401 remote w id token content :
  session w = Some token →
  (∀ r, remote r = Response 401 content) →
  ∃ r,
    DeleteButton.handleDelete remote id true (w, ()) =
      (Normal (), (mkWorld (localStorage w) (session w)
                     (log w ++ [ConfirmDialog (str "Are you sure?"); Fetch r; ConsoleError;
                                Alert (str "Failed to delete")]), ())).
Proof.
  destruct w as [ls sess lg]. simpl. intros -> Hremote.
  unfold DeleteButton.handleDelete, deleteTransactionAPI. run. simpl.
  rewrite Hremote. simpl.
  eexists. rewrite <- !app_assoc. reflexivity.
Qed.

End SessionFacts.

Module UploadProperties.
Import JS Browser Api Upload SessionFacts.

(** C3. The answer to an upload is classified in the order of the
    specification: the password flag first, then a success with extracted
    data, then a plain success flag or a status text that carries the
    check mark, otherwise an error. A password request leaves the
    component idle with the password prompt on (the state the
    specification calls awaiting-password), whatever else the answer
    holds. *)
Theorem handleSubmit_classifies (w : world) (st : state) (token : jstring) (http : N)
    (data : gmap jstring value) :
  usable (localStorage w !! str "sb-token") = Some token →
  http ≠ 401%N →
  let st' := (handleSubmit (λ _, Response http (Json (VObj data))) (w, st)).2.2 in
  match specClassify data with
  | PasswordRequired =>
      requiresPassword st' = true ∧ status st' = str "idle" ∧
      message st' = VStr msgPassword ∧
      showConfirmation st' = showConfirmation st
  | ExtractedCandidate =>
      showConfirmation st' = true ∧
      extractedData st' = get data (str "extracted_data") ∧
      status st' = str "idle"
  | DirectSuccess =>
      status st' = str "success" ∧
      message st' = orElse (get data (str "status")) (VStr msgProcessed) ∧
      showConfirmation st' = showConfirmation st
  | OtherShape =>
      status st' = str "error" ∧ showConfirmation st' = showConfirmation st
  end ∧
  (get data (str "requires_password") = VBool true →
   specClassify data = PasswordRequired ∧
   requiresPassword st' = true ∧ status st' = str "idle" ∧
   showConfirmation st' = showConfirmation st).
Proof.
  intros Htok Hhttp st'.
  assert (Hrun : st' = (handleSubmit (λ _, Response http (Json (VObj data))) (w, st)).2.2)
    by reflexivity.
  clearbody st'. unfold handleSubmit in Hrun. run in Hrun. simpl in Hrun.
  rewrite Htok in Hrun. simpl in Hrun.
  rewrite bool_decide_eq_false_2 in Hrun by assumption.
  unfold specClassify, hasSuccessMarker.
  destruct (truthy (get data (str "requires_password"))) eqn:Hp.
  { subst st'. simpl. split; [repeat split; reflexivity|].
    intros _. repeat split; reflexivity. }
  assert (Hno : get data (str "requires_password") = VBool true → False).
  { intros Hreq. rewrite Hreq in Hp. discriminate Hp. }
  destruct (truthy (get data (str "success"))) eqn:Hs;
    destruct (truthy (get data (str "extracted_data"))) eqn:Hx;
    simpl in Hrun |- *;
    try (subst st'; simpl; split; [repeat split; reflexivity | intros Hreq; destruct (Hno Hreq)]).
  - destruct (truthy (get data (str "status"))) eqn:Hst; simpl in Hrun |- *;
      [destruct (includes (get data (str "status")) checkMark) as [[]|e] eqn:Hinc|];
      simpl in Hrun; subst st'; simpl;
      (split; [repeat split; reflexivity | intros Hreq; destruct (Hno Hreq)]).
  - destruct (truthy (get data (str "status"))) eqn:Hst; simpl in Hrun |- *;
      [destruct (includes (get data (str "status")) checkMark) as [[]|e] eqn:Hinc|];
      simpl in Hrun; subst st'; simpl;
      (split; [repeat split; reflexivity | intros Hreq; destruct (Hno Hreq)]).
Qed.


Lemma handleSubmit_classifies_witness :
  let data : gmap jstring value :=
    {[ str "requires_password" := VBool true; str "success" := VBool true;
       str "extracted_data" := VObj Samples.extracted ]} in
  let st' := (handleSubmit (λ _, Response 200 (Json (VObj data)))
                (Samples.signedIn, Samples.uploadIdle)).2.2 in
  specClassify data = PasswordRequired ∧
  requiresPassword st' = true ∧ status st' = str "idle" ∧
  showConfirmation st' = false.
Proof.
  intros data st'.
  assert (Htok : usable (localStorage Samples.signedIn !! str "sb-token")
                 = Some (str "token-1")) by (vm_compute; reflexivity).
  assert (Hhttp : 200%N ≠ 401%N) by discriminate.
  destruct (handleSubmit_classifies Samples.signedIn Samples.uploadIdle
              (str "token-1") 200 data Htok Hhttp) as [_ Hpw].
  apply Hpw. vm_compute. reflexivity.
Defined.

(** C9. When the save fails (no answer, a 401, another status outside
    2xx, or a body that is not JSON) the modal stays open with the working
    copy it had, the upload component shows an error whose text is the
    [detail] the backend sent, and one request was sent; the modal closes
    only when the backend accepted the transaction. The copy is a record
    of the extraction: none of its keys is a name that every object
    answers through its prototype. *)
Theorem save_failure_keeps_reviewing E remote w up m d token :
  App.reviewing up m = true →
  Modal.editedData m = Some d → Modal.wellTyped d = true → ModalEvents.plainKeys d →
  Modal.allValid d →
  session w = Some token →
  let after := App.confirm E remote w up m in
  let w' := after.1.1 in
  let up' := after.1.2 in
  let m' := after.2 in
  let answer := remote (confirmRequest d token) in
  (∃ rest, log w' = log w ++ [ConsoleLog; Fetch (confirmRequest d token)] ++ rest ∧
           ∀ r, Fetch r ∉ rest) ∧
  (saved answer = false →
     App.reviewing up' m' = true ∧
     Modal.editedData m' = Some d ∧
     extractedData up' = extractedData up ∧
     status up' = str "error" ∧
     isSaving up' = false ∧
     ∃ text, message up' = VStr (msgSaveFailed ++ text) ∧
             ∀ http o detail,
               answer = Response http (Json (VObj o)) → http ≠ 401%N →
               o !! str "detail" = Some (VStr detail) → detail ≠ [] →
               text = detail) ∧
  (saved answer = true →
     App.reviewing up' m' = false ∧ status up' = str "success").
Proof.
  intros Hrev Hd Hty _ Hall Hs after w' up' m' answer.
  destruct (ModalFacts.handleConfirm_spec m d Hd Hty) as (Er & Wr & Hrun & HE & _).
  assert (Er = ∅) as -> by (by apply (ModalFacts.revalidated_empty d)).
  rewrite bool_decide_eq_true_2 in Hrun by reflexivity.
  assert (Hafter : after =
            let '(_, (w1, up1)) := handleConfirmTransaction E remote d (w, up) in
            (w1, up1, Modal.mkState (Some d) (Modal.editingField m) ∅ Wr)).
  { unfold after, App.confirm. rewrite Hrun. reflexivity. }
  unfold App.reviewing in Hrev |- *.
  apply andb_true_iff in Hrev as [Hrev _]. apply andb_true_iff in Hrev as [Hshow Hext].
  destruct w as [ls sess lg]. simpl in Hs. subst sess.
  unfold handleConfirmTransaction, confirmTransaction in Hafter. run in Hafter.
  simpl in Hafter. fold (confirmRequest d token) in Hafter. fold answer in Hafter.
  subst w' up' m'. clearbody after. clearbody answer.
  assert (Hlog : ∀ tail : list effect,
             (∀ r, Fetch r ∉ tail) →
             ∃ rest, ((lg ++ [ConsoleLog]) ++ [Fetch (confirmRequest d token)]) ++ tail =
                     lg ++ [ConsoleLog; Fetch (confirmRequest d token)] ++ rest ∧
                     ∀ r, Fetch r ∉ rest).
  { intros tail Htail. exists tail. by rewrite <- !app_assoc. }
  assert (Hquiet : ∀ r, Fetch r ∉ [ConsoleError]).
  { intros r Hin. apply elem_of_cons in Hin as [Hin|Hin]; [discriminate|].
    by apply elem_of_nil in Hin. }
  destruct answer as [msg|http content]; simpl in Hafter.
  { subst after. simpl. rewrite Hshow, Hext.
    split; [by apply Hlog|]. split; [|discriminate].
    intros _. repeat (split; [reflexivity|]).
    eexists. split; [reflexivity|]. intros http o detail Heq. discriminate Heq. }
  case_bool_decide as H401.
  { subst http after. simpl. rewrite Hshow, Hext.
    split; [by apply Hlog|]. split; [|destruct content; discriminate].
    intros _. repeat (split; [reflexivity|]).
    eexists. split; [reflexivity|]. intros http o detail [= <- _] Hne. done. }
  destruct (ok http) eqn:Hok; simpl in Hafter.
  - destruct content as [v|msg]; simpl in Hafter; subst after; simpl;
      rewrite ?Hok, ?Hshow, ?Hext.
    + split.
      { rewrite <- !app_assoc. eexists. split; [reflexivity|].
        intros r Hin. repeat (apply elem_of_cons in Hin as [Hin|Hin]; [discriminate|]).
        by apply elem_of_nil in Hin. }
      split; [discriminate|]. intros _. split; reflexivity.
    + split; [by apply Hlog|]. split; [|discriminate].
      intros _. repeat (split; [reflexivity|]).
      eexists. split; [reflexivity|]. intros http' o detail Heq. discriminate Heq.
  - assert (Hsaved : saved (Response http content) = false)
      by (destruct content; simpl; by rewrite ?Hok).
    rewrite Hsaved.
    destruct content as [v|msg]; simpl in Hafter.
    + destruct (getProp v (str "detail")) as [det|e] eqn:Hdet; simpl in Hafter;
        subst after; simpl; rewrite ?Hshow, ?Hext.
      * split; [by apply Hlog|]. split; [|discriminate].
        intros _. repeat (split; [reflexivity|]).
        eexists. split; [reflexivity|].
        intros http' o detail [= <- ->] _ Ho Hne.
        simpl in Hdet. injection Hdet as <-. unfold get. rewrite Ho. simpl.
        destruct detail; [done | reflexivity].
      * split; [by apply Hlog|]. split; [|discriminate].
        intros _. repeat (split; [reflexivity|]).
        eexists. split; [reflexivity|].
        intros http' o detail [= <- ->]. discriminate Hdet.
    + subst after; simpl; rewrite ?Hshow, ?Hext.
      split; [by apply Hlog|]. split; [|discriminate].
      intros _. repeat (split; [reflexivity|]).
      eexists. split; [reflexivity|]. intros http' o detail Heq. discriminate Heq.
Qed.


Lemma save_failure_keeps_reviewing_witness :
  let after := App.confirm Samples.engine0 Samples.rejecting Samples.signedIn
                 Samples.uploadReviewing (Samples.reviewingState Samples.extracted) in
  App.reviewing after.1.2 after.2 = true ∧
  Modal.editedData after.2 = Some Samples.extracted ∧
  message after.1.2 = VStr (msgSaveFailed ++ str "Duplicate transaction").
Proof.
  intros after.
  assert (Hty : Modal.wellTyped Samples.extracted = true) by (vm_compute; reflexivity).
  assert (Hall : Modal.allValid Samples.extracted).
  { apply (ModalFacts.allValid_by_run (Samples.reviewingState Samples.extracted));
      [reflexivity | exact Hty | vm_compute; reflexivity]. }
  destruct (save_failure_keeps_reviewing Samples.engine0 Samples.rejecting
              Samples.signedIn Samples.uploadReviewing
              (Samples.reviewingState Samples.extracted) Samples.extracted
              (str "token-1") eq_refl eq_refl Hty ModalFacts.plainKeys_extracted Hall
              eq_refl)
    as (_ & Hfail & _).
  destruct (Hfail eq_refl) as (Hrev & Hcopy & _ & _ & _ & text & Hmsg & Htext).
  split; [exact Hrev|]. split; [exact Hcopy|].
  rewrite (Htext 400%N {[ str "detail" := VStr (str "Duplicate transaction") ]}
             (str "Duplicate transaction") eq_refl) in Hmsg;
    [exact Hmsg | discriminate | reflexivity | discriminate].
Defined.

(** C1, at a 401 answer. The upload removes the stored token and goes to
    the login page. The save and the delete keep the token and the
    session, go nowhere and report an ordinary failure. Each handler
    sent one request. *)
Theorem unauthorized_save_keeps_credential :
  let saving := (handleConfirmTransaction Samples.engine0 Samples.unauthorized
                   Samples.extracted (Samples.signedIn, Samples.uploadReviewing)).2 in
  let deleting := (DeleteButton.handleDelete Samples.unauthorized (str "17") true
                     (Samples.signedIn, ())).2 in
  let uploading := (handleSubmit Samples.unauthorized
                      (Samples.signedIn, Samples.uploadIdle)).2 in
  let token := str "token-1" in
  (localStorage (saving.1) !! str "sb-token" = Some token ∧
   session (saving.1) = Some token ∧
   log (saving.1) =
     [ConsoleLog; Fetch (confirmRequest Samples.extracted token); ConsoleError] ∧
   message (saving.2) = VStr (msgSaveFailed ++ str "Unauthorized")) ∧
  (localStorage (deleting.1) !! str "sb-token" = Some token ∧
   session (deleting.1) = Some token ∧
   log (deleting.1) =
     [ConfirmDialog (str "Are you sure?");
      Fetch (mkRequest (ApiUrl (str "/expenses/17")) (str "DELETE") [bearer token] NoBody);
      ConsoleError; Alert (str "Failed to delete")]) ∧
  (localStorage (uploading.1) !! str "sb-token" = None ∧
   log (uploading.1) =
     [Fetch (mkRequest (Localhost8000 (str "/upload")) (str "POST") [bearer token]
               (FormData (Some 1%N) None));
      RouterPush (str "/login")]).
Proof. repeat split; vm_compute; reflexivity. Qed.

End UploadProperties.

(** ** More on the field validator *)

Module ValidatorFacts.
Import JS Modal ModalFacts.

Lemma trimStart_blank pre s :
  forallb isWhiteSpace pre = true → trimStart (pre ++ s) = trimStart s.
Proof.
  induction pre as [|c pre IH]; simpl; [done|].
  intros H. apply andb_true_iff in H as [Hc Hpre]. rewrite Hc. by apply IH.
Qed.

Lemma trimStart_all_blank s : forallb isWhiteSpace s = true → trimStart s = [].
Proof.
  intros H. rewrite <- (app_nil_r s). by rewrite trimStart_blank.
Qed.

(** What [trimStart] returns does not start with white space. *)
Lemma trimStart_app_keeps s post :
  trimStart s ≠ [] → trimStart (s ++ post) = trimStart s ++ post.
Proof.
  induction s as [|c s IH]; simpl; [done|].
  destruct (isWhiteSpace c); [exact IH | done].
Qed.

Lemma trimStart_cases s :
  trimStart s = [] ∧ forallb isWhiteSpace s = true ∨
  ∃ c r, trimStart s = c :: r ∧ isWhiteSpace c = false.
Proof.
  induction s as [|c s IH]; simpl; [by left|].
  destruct (isWhiteSpace c) eqn:Hc; [|right; eauto].
  destruct IH as [[-> ->]|H]; [by left | by right].
Qed.

Lemma forallb_rev {A} (p : A → bool) l : forallb p (rev l) = forallb p l.
Proof.
  induction l as [|x l IH]; simpl; [done|].
  rewrite forallb_app, IH. simpl. rewrite andb_true_r. apply andb_comm.
Qed.

Lemma trimEnd_blank s post :
  forallb isWhiteSpace post = true → trimEnd (s ++ post) = trimEnd s.
Proof.
  intros H. unfold trimEnd. rewrite rev_app_distr.
  rewrite trimStart_blank; [done|]. by rewrite forallb_rev.
Qed.

Lemma trimEnd_all_blank s : forallb isWhiteSpace s = true → trimEnd s = [].
Proof.
  intros H. unfold trimEnd. rewrite trimStart_all_blank; [done|]. by rewrite forallb_rev.
Qed.

(** White space around a text does not change what [trim] returns. *)
Lemma trim_padded pre s post :
  forallb isWhiteSpace pre = true → forallb isWhiteSpace post = true →
  trim (pre ++ s ++ post) = trim s.
Proof.
  intros Hpre Hpost. unfold trim. rewrite trimStart_blank by assumption.
  destruct (trimStart_cases s) as [[Hs Hall]|(c & r & Hs & Hc)].
  - rewrite Hs. rewrite trimStart_all_blank; [done|].
    rewrite forallb_app. by rewrite Hall, Hpost.
  - rewrite trimStart_app_keeps by (rewrite Hs; done).
    by apply trimEnd_blank.
Qed.

Lemma tooShort_padded pre s post n :
  forallb isWhiteSpace pre = true → forallb isWhiteSpace post = true →
  (0 < n)%nat →
  tooShort (VStr (pre ++ s ++ post)) n = tooShort (VStr s) n.
Proof.
  intros Hpre Hpost Hn. unfold tooShort. simpl.
  rewrite trim_padded by assumption.
  destruct (decide (s = [])) as [->|Hs].
  - destruct (decide (pre ++ [] ++ post = [])) as [->|Hne];
      rewrite ?bool_decide_eq_true_2 by done; simpl; [done|].
    rewrite bool_decide_eq_false_2 by done. simpl.
    destruct n; [lia | done].
  - rewrite !bool_decide_eq_false_2; [done | done |].
    intros Heq. apply app_eq_nil in Heq as [_ Heq].
    by apply app_eq_nil in Heq as [? _].
Qed.

(** The first character decides that a text holds no number. *)
Lemma scanDecimal_no_number c r :
  isDigit c = false → c ≠ 43%N → c ≠ 45%N → c ≠ 46%N → c ≠ 73%N →
  scanDecimal (c :: r) = None.
Proof.
  intros Hd Hplus Hminus Hdot HI.
  unfold scanDecimal, takeSign.
  rewrite !bool_decide_eq_false_2 by assumption.
  unfold scanUnsigned.
  assert (Hinf : stripPrefix (str "Infinity") (c :: r) = None).
  { change (str "Infinity") with (73%N :: str "nfinity"). simpl.
    by rewrite bool_decide_eq_false_2. }
  rewrite Hinf. simpl. rewrite Hd. simpl.
  by rewrite bool_decide_eq_false_2.
Qed.

(** Rounding keeps the sign of a negative literal, or gives NaN. *)
Lemma binary_round_aux_negative mx ex lx :
  let x := binary_round_aux prec emax true mx ex lx in
  isNaN x || num_le x (num_of_Z 0) = true.
Proof.
  unfold binary_round_aux.
  destruct (shr_fexp prec emax mx ex lx) as [mrs' e'].
  destruct (shr_fexp prec emax _ e' loc_Exact) as [mrs'' e''].
  destruct (shr_m mrs'') as [|m|m]; [reflexivity| |reflexivity].
  destruct (e'' <=? emax - prec)%Z; reflexivity.
Qed.

Lemma roundLiteral_negative l :
  isNaN (roundLiteral true l) || num_le (roundLiteral true l) (num_of_Z 0) = true.
Proof.
  destruct l as [|mant exp10]; [reflexivity|]. simpl.
  destruct mant as [|m|m]; [reflexivity| |reflexivity].
  destruct (0 <=? exp10)%Z eqn:Hexp.
  - apply Z.leb_le in Hexp.
    assert (Hneg : (Z.neg m * 10 ^ exp10 < 0)%Z).
    { pose proof (Z.pow_pos_nonneg 10 exp10 ltac:(lia) Hexp). nia. }
    destruct (Z.neg m * 10 ^ exp10)%Z as [|p|p] eqn:Hp; try lia.
    unfold binary_normalize, binary_round.
    destruct (shl_align p 0 _) as [mz ez].
    apply binary_round_aux_negative.
  - unfold SFdiv.
    destruct (SFdiv_core_binary prec emax (Z.pos m) 0 _ 0) as [[mz ez] lz].
    apply binary_round_aux_negative.
Qed.

End ValidatorFacts.

Module ValidatorProperties.
Import JS Modal ModalFacts ModalEvents ValidatorFacts.

(** X1. The validator answers for the field it was asked about and for
    no other: both maps hold at most one entry, under that field; never
    an error and a warning at once; and the texts are the four of the
    source. *)
Theorem validateField_one_verdict field v errors warns :
  validateField field v = Normal (errors, warns) →
  (∀ k, k ≠ field → errors !! k = None ∧ warns !! k = None) ∧
  (errors !! field = None ∨ warns !! field = None) ∧
  (∀ x, errors !! field = Some x →
        x = VStr (str "Amount must be a positive number") ∧ field = str "amount" ∨
        x = VStr (str "Name must be at least 2 characters") ∧
          (field = str "sender" ∨ field = str "receiver") ∨
        x = VStr (str "Transaction ID must be at least 4 characters") ∧
          field = str "transaction_id") ∧
  (∀ x, warns !! field = Some x →
        x = VStr (str "Large amount detected - please verify") ∧ field = str "amount").
Proof.
  destruct (decide (field = str "amount")) as [->|Ha].
  { rewrite validateField_amount.
    destruct (_ || _); [|destruct (num_gt _ _)]; intros [= <- <-];
      (split; [intros k Hk; split; by simplify_map_eq|]);
      (split; [first [right; by simplify_map_eq | left; by simplify_map_eq]|]);
      split; intros x Hx; simplify_map_eq; auto. }
  destruct (decide (field = str "sender" ∨ field = str "receiver")) as [Hn|Hn].
  { rewrite validateField_name by assumption.
    destruct (tooShort v 2) as [[]|]; simpl; [| |discriminate]; intros [= <- <-];
      (split; [intros k Hk; split; by simplify_map_eq|]);
      (split; [right; by simplify_map_eq|]);
      split; intros x Hx; simplify_map_eq; auto. }
  destruct (decide (field = str "transaction_id")) as [->|Ht].
  { rewrite validateField_transaction_id.
    destruct (tooShort v 4) as [[]|]; simpl; [| |discriminate]; intros [= <- <-];
      (split; [intros k Hk; split; by simplify_map_eq|]);
      (split; [right; by simplify_map_eq|]);
      split; intros x Hx; simplify_map_eq; auto. }
  rewrite validateField_other by tauto. intros [= <- <-].
  split; [intros k Hk; split; by simplify_map_eq|].
  split; [left; by simplify_map_eq|]. split; intros x Hx; simplify_map_eq.
Qed.

Lemma validateField_one_verdict_witness :
  ({[ str "amount" := VStr (str "Large amount detected - please verify") ]}
     : gmap jstring value) !! str "sender" = None ∧
  (∅ : gmap jstring value) !! str "amount" = None.
Proof.
  destruct (validateField_one_verdict (str "amount") (VStr (str "250000")) ∅
              {[ str "amount" := VStr (str "Large amount detected - please verify") ]})
    as (Hother & Hone & _).
  - vm_compute. reflexivity.
  - split.
    + apply (Hother (str "sender")). discriminate.
    + apply lookup_empty.
Defined.

(** X2. Edits typed into different displayed fields can be made in
    either order, and a second text typed into a field replaces the
    first: the working copy and both maps end up the same. *)
Theorem edits_compose st (A B a b a' : jstring) :
  A ∈ displayFields → B ∈ displayFields →
  (A ≠ B →
   (handleFieldEdit A (VStr a) (handleFieldEdit B (VStr b) st).1).1 =
   (handleFieldEdit B (VStr b) (handleFieldEdit A (VStr a) st).1).1) ∧
  (handleFieldEdit A (VStr a') (handleFieldEdit A (VStr a) st).1).1 =
  (handleFieldEdit A (VStr a') st).1.
Proof.
  intros _ _. split.
  - intros Hne. rewrite !handleFieldEdit_string. simpl.
    f_equal; [f_equal|..]; by apply insert_insert_ne.
  - rewrite !handleFieldEdit_string. simpl.
    f_equal; [f_equal|..]; by rewrite insert_insert_eq.
Qed.

Lemma edits_compose_witness :
  let st := Samples.reviewingState Samples.extracted in
  (handleFieldEdit (str "amount") (VStr (str "12"))
     (handleFieldEdit (str "sender") (VStr (str "A")) st).1).1 =
  (handleFieldEdit (str "sender") (VStr (str "A"))
     (handleFieldEdit (str "amount") (VStr (str "12")) st).1).1.
Proof.
  intros st.
  apply (proj1 (edits_compose st (str "amount") (str "sender") (str "12") (str "A") []
                  ltac:(apply (bool_decide_unpack _); vm_compute; reflexivity)
                  ltac:(apply (bool_decide_unpack _); vm_compute; reflexivity))).
  discriminate.
Defined.

(** X3. White space around a name or a transaction id changes nothing of
    its validation, and neither does white space before an amount. *)
Theorem padding_does_not_change_validation field (pre s post : jstring) :
  forallb isWhiteSpace pre = true → forallb isWhiteSpace post = true →
  (field = str "sender" ∨ field = str "receiver" ∨ field = str "transaction_id" →
   validateField field (VStr (pre ++ s ++ post)) = validateField field (VStr s)) ∧
  validateField (str "amount") (VStr (pre ++ s)) = validateField (str "amount") (VStr s).
Proof.
  intros Hpre Hpost. split.
  - intros [Hf|[Hf| ->]].
    + rewrite !validateField_name by tauto. by rewrite tooShort_padded by (done || lia).
    + rewrite !validateField_name by tauto. by rewrite tooShort_padded by (done || lia).
    + rewrite !validateField_transaction_id. by rewrite tooShort_padded by (done || lia).
  - rewrite !validateField_amount. simpl. unfold parseFloatString.
    by rewrite trimStart_blank.
Qed.

Lemma padding_does_not_change_validation_witness :
  validateField (str "sender") (VStr (str "  A	")) = validateField (str "sender") (VStr (str "A")) ∧
  validateField (str "amount") (VStr (str " 12")) = validateField (str "amount") (VStr (str "12")).
Proof.
  destruct (padding_does_not_change_validation (str "sender") (str "  ") (str "A") (str "	")
              eq_refl eq_refl) as [Hname _].
  destruct (padding_does_not_change_validation (str "sender") (str " ") (str "12") []
              eq_refl eq_refl) as [_ Hamount].
  split; [apply Hname; by left | exact Hamount].
Defined.

(** X4. An amount written with a minus sign is refused, whatever follows
    the sign, ["-0"] and ["-Infinity"] included. *)
Theorem minus_sign_rejected (s : jstring) l rest :
  scanDecimal (trimStart s) = Some (true, l, rest) →
  validateField (str "amount") (VStr s) =
    Normal ({[ str "amount" := VStr (str "Amount must be a positive number") ]}, ∅).
Proof.
  intros Hscan. rewrite validateField_amount. simpl. unfold parseFloatString.
  rewrite Hscan. by rewrite roundLiteral_negative.
Qed.

Lemma minus_sign_rejected_witness :
  validateField (str "amount") (VStr (str "-0")) =
    Normal ({[ str "amount" := VStr (str "Amount must be a positive number") ]}, ∅).
Proof.
  exact (minus_sign_rejected (str "-0") (LitDecimal 0 0) [] eq_refl).
Defined.

(** X5. An amount that holds no number is refused: [undefined], [null],
    a boolean, an object with plain keys, an empty array, a blank text,
    and any text whose first character after the white space is no digit,
    sign, dot or [I]. *)
Theorem amount_without_number_rejected v :
  v = VUndefined ∨ v = VNull ∨ (∃ b, v = VBool b) ∨ (∃ o, v = VObj o ∧ plainKeys o) ∨
  v = VArr [] ∨
  (∃ s, v = VStr s ∧
        (trimStart s = [] ∨
         ∃ c r, trimStart s = c :: r ∧ isDigit c = false ∧
                c ≠ 43%N ∧ c ≠ 45%N ∧ c ≠ 46%N ∧ c ≠ 73%N)) →
  validateField (str "amount") v =
    Normal ({[ str "amount" := VStr (str "Amount must be a positive number") ]}, ∅).
Proof.
  intros Hv. rewrite validateField_amount.
  assert (Hnan : parseFloat v = NaN); [|by rewrite Hnan].
  destruct Hv as [->|[->|[[[] ->]|[[o [-> _]]|[->|(s & -> & Hs)]]]]];
    try (vm_compute; reflexivity).
  simpl. unfold parseFloatString.
  destruct Hs as [->|(c & r & -> & Hd & H1 & H2 & H3 & H4)]; [reflexivity|].
  by rewrite scanDecimal_no_number.
Qed.

Lemma amount_without_number_rejected_witness :
  validateField (str "amount") (VStr (str "  Rs 40")) =
    Normal ({[ str "amount" := VStr (str "Amount must be a positive number") ]}, ∅).
Proof.
  apply amount_without_number_rejected. do 5 right.
  exists (str "  Rs 40"). split; [reflexivity|]. right.
  exists 82%N, (str "s 40"). repeat split; discriminate.
Defined.

End ValidatorProperties.

(** ** Confidence marks and the life of the modal *)

Module ReviewFacts.
Import JS Modal ModalFacts Confidence ModalEvents.

Lemma wellTyped_confidence d c :
  wellTyped (<[str "confidence" := c]> d) = wellTyped d.
Proof.
  unfold wellTyped, get. simpl.
  rewrite !lookup_insert_ne by str_neq. reflexivity.
Qed.

Lemma revalidatedError_confidence d c f :
  revalidatedError (<[str "confidence" := c]> d) f = revalidatedError d f.
Proof.
  unfold revalidatedError. case_bool_decide as Hf; [done|].
  by rewrite lookup_insert_ne.
Qed.

Lemma revalidatedWarning_confidence d c f :
  revalidatedWarning (<[str "confidence" := c]> d) f = revalidatedWarning d f.
Proof.
  unfold revalidatedWarning. case_bool_decide as Hf; [done|].
  by rewrite lookup_insert_ne.
Qed.

Lemma revalidatedError_Some d f x :
  revalidatedError d f = Some x →
  ∃ v, d !! f = Some v ∧ fieldError f v = Some x.
Proof.
  unfold revalidatedError. case_bool_decide; [done|].
  destruct (d !! f) as [v|]; [|done]. simpl. eauto.
Qed.

Lemma handleConfirm_consistent st st' call :
  handleConfirm st = Normal (st', call) → consistent st'.
Proof.
  intros Hrun. unfold handleConfirm in Hrun.
  destruct (editedData st) as [d|] eqn:Hd; [|discriminate].
  destruct (handleConfirm_cases st d Hd) as [[e He]|(E & W & HEW & HE & _)].
  { unfold handleConfirm in He. rewrite Hd in He. congruence. }
  unfold handleConfirm in HEW. rewrite Hd in HEW. rewrite HEW in Hrun.
  injection Hrun as <- _. intros f x Hx _. simpl in Hx. rewrite HE in Hx.
  apply revalidatedError_Some in Hx as (v & Hv & Herr).
  exists d, v. done.
Qed.

Lemma step_consistent st e : consistent st → consistent (step st e).
Proof.
  intros Hc. destruct e as [v|f s|]; simpl.
  - unfold onExtractedData. destruct (truthy v); [apply consistent_fresh | exact Hc].
  - by apply handleFieldEdit_consistent.
  - destruct (handleConfirm st) as [[st' call]|e] eqn:Hrun; [|exact Hc].
    by eapply handleConfirm_consistent.
Qed.

Lemma consistent_initial : consistent initial.
Proof. intros f x Hx. simpl in Hx. by rewrite lookup_empty in Hx. Qed.

Lemma foldl_step_consistent events : ∀ st,
  consistent st → consistent (foldl step st events).
Proof.
  induction events as [|e events IH]; intros st Hc; [exact Hc|].
  simpl. apply IH. by apply step_consistent.
Qed.

(** A displayed error means that a click on Confirm is refused. *)
Lemma consistent_disabled_refused st :
  consistent st → confirmDisabled false st = true →
  handedOver (handleConfirm st) = None.
Proof.
  intros Hc Hdis. unfold confirmDisabled in Hdis. simpl in Hdis.
  apply existsb_exists in Hdis as (f & Hin & Ht).
  apply list_elem_of_In, elem_of_Object_keys in Hin as [x Hx].
  unfold get in Ht. rewrite Hx in Ht. simpl in Ht.
  destruct (Hc f x Hx Ht) as (d & v & Hd & Hv & Herr).
  destruct (handleConfirm_cases st d Hd) as [[e ->]|(E & W & -> & HE & _)]; [done|].
  simpl. rewrite bool_decide_eq_false_2; [done|].
  intros ->. specialize (HE f). rewrite lookup_empty in HE.
  unfold revalidatedError in HE.
  case_bool_decide as Hf.
  - subst f. rewrite fieldError_confidence in Herr. discriminate.
  - rewrite Hv in HE. simpl in HE. congruence.
Qed.

End ReviewFacts.

Module ReviewProperties.
Import JS Modal ModalFacts Confidence ModalEvents ReviewFacts.

(** X6. A field without a confidence of its own reads as 0.5 and is
    marked as low: when there is no working copy, no confidence object, no
    entry for the field, or a [null] entry. A numeric entry is read as it
    is, and marked exactly when it is below 0.7. *)
Theorem missing_confidence_is_low E st field :
  field ∈ displayFields →
  ((∀ d o x, editedData st = Some d → d !! str "confidence" = Some (VObj o) →
             o !! field = Some x → x = VNull ∨ x = VUndefined) →
   getConfidence st field = VNum half ∧ isLowConfidence E st field = true) ∧
  (∀ d o x, editedData st = Some d → d !! str "confidence" = Some (VObj o) →
            o !! field = Some (VNum x) →
            getConfidence st field = VNum x ∧
            isLowConfidence E st field = SFltb x threshold).
Proof.
  intros _. split.
  - intros Hmiss.
    assert (Hget : getConfidence st field = VNum half).
    { unfold getConfidence. destruct (editedData st) as [d|] eqn:Hd; [|reflexivity].
      unfold get at 1.
      destruct (d !! str "confidence") as [c|] eqn:Hc; simpl; [|reflexivity].
      destruct c as [| |b|y|s|l|o]; simpl; try reflexivity. unfold get.
      destruct (o !! field) as [x|] eqn:Hx; simpl; [|reflexivity].
      destruct (Hmiss d o x eq_refl Hc Hx) as [-> | ->]; reflexivity. }
    split; [exact Hget|]. unfold isLowConfidence. rewrite Hget.
    vm_compute. reflexivity.
  - intros d o x Hd Hc Hx.
    assert (Hget : getConfidence st field = VNum x).
    { unfold getConfidence. rewrite Hd. unfold get. rewrite !Hc. simpl.
      unfold get. rewrite !Hx. reflexivity. }
    split; [exact Hget|]. unfold isLowConfidence. rewrite Hget. reflexivity.
Qed.

Lemma missing_confidence_is_low_witness :
  let st := Samples.reviewingState Samples.extracted in
  (getConfidence st (str "sender") = VNum half ∧
   isLowConfidence Samples.engine0 st (str "sender") = true) ∧
  isLowConfidence Samples.engine0 st (str "amount") = false.
Proof.
  intros st.
  destruct (missing_confidence_is_low Samples.engine0 st (str "sender")) as [Hmiss _].
  { apply (bool_decide_unpack _). vm_compute. reflexivity. }
  destruct (missing_confidence_is_low Samples.engine0 st (str "amount")) as [_ Hnum].
  { apply (bool_decide_unpack _). vm_compute. reflexivity. }
  split.
  - apply Hmiss. intros d o x [= <-] Hc Hx. exfalso.
    assert (Ho : o = {[ str "amount" := VNum (num_of_Z 1) ]}).
    { vm_compute in Hc. by injection Hc as <-. }
    subst o. rewrite lookup_singleton_ne in Hx; [discriminate|]. discriminate.
  - destruct (Hnum Samples.extracted {[ str "amount" := VNum (num_of_Z 1) ]} (num_of_Z 1))
      as [_ ->]; [reflexivity | vm_compute; reflexivity | vm_compute; reflexivity |].
    vm_compute. reflexivity.
Defined.

(** X7. The confidence entry never blocks a confirmation: whatever is
    stored under [confidence], the revalidation gives the same errors and
    warnings and hands the copy over in the same cases. *)
Theorem confidence_never_blocks st d c :
  editedData st = Some d → wellTyped d = true → plainKeys d →
  ∃ E W call call',
    handleConfirm st = Normal (mkState (Some d) (editingField st) E W, call) ∧
    handleConfirm (setEditedData (<[str "confidence" := c]> d) st) =
      Normal (mkState (Some (<[str "confidence" := c]> d)) (editingField st) E W, call') ∧
    (is_Some call ↔ is_Some call').
Proof.
  intros Hd Hty _.
  destruct (handleConfirm_spec st d Hd Hty) as (E & W & Hrun & HE & HW).
  destruct (handleConfirm_spec (setEditedData (<[str "confidence" := c]> d) st)
              (<[str "confidence" := c]> d) eq_refl)
    as (E' & W' & Hrun' & HE' & HW').
  { by rewrite wellTyped_confidence. }
  assert (E' = E) as ->.
  { apply map_eq. intros f. by rewrite HE, HE', revalidatedError_confidence. }
  assert (W' = W) as ->.
  { apply map_eq. intros f. by rewrite HW, HW', revalidatedWarning_confidence. }
  eexists E, W, _, _. split; [exact Hrun|]. split; [exact Hrun'|].
  case_bool_decide; split; intros [? ?]; done.
Qed.

Lemma confidence_never_blocks_witness :
  ∃ E W call call',
    handleConfirm (Samples.reviewingState Samples.extracted) =
      Normal (mkState (Some Samples.extracted) None E W, call) ∧
    handleConfirm (setEditedData (<[str "confidence" := VNull]> Samples.extracted)
                     (Samples.reviewingState Samples.extracted)) =
      Normal (mkState (Some (<[str "confidence" := VNull]> Samples.extracted)) None E W,
              call') ∧
    (is_Some call ↔ is_Some call').
Proof.
  apply (confidence_never_blocks (Samples.reviewingState Samples.extracted)
           Samples.extracted VNull eq_refl); [vm_compute; reflexivity|].
  apply plainKeys_extracted.
Defined.

(** X8. Through the life of the modal every error on display belongs to
    the current value of its field; so the Confirm button is disabled
    only when the click would be refused anyway. *)
Theorem disabled_button_only_blocks_refusals events :
  Forall possible events →
  let st := foldl step initial events in
  consistent st ∧
  (confirmDisabled false st = true → handedOver (handleConfirm st) = None).
Proof.
  intros _ st.
  assert (Hc : consistent st) by (apply foldl_step_consistent, consistent_initial).
  split; [exact Hc|]. by apply consistent_disabled_refused.
Qed.

Lemma disabled_button_only_blocks_refusals_witness :
  let st := foldl step initial
              [Extracted (VObj Samples.extracted); Typed (str "amount") (str "abc")] in
  confirmDisabled false st = true ∧ handedOver (handleConfirm st) = None.
Proof.
  intros st.
  destruct (disabled_button_only_blocks_refusals
              [Extracted (VObj Samples.extracted); Typed (str "amount") (str "abc")])
    as [_ Hrefused].
  - apply List.Forall_cons; [intros o [= <-]; apply plainKeys_extracted|].
    apply List.Forall_cons; [|apply List.Forall_nil].
    apply (bool_decide_unpack _). vm_compute. reflexivity.
  - assert (Hdis : confirmDisabled false st = true) by (vm_compute; reflexivity).
    split; [exact Hdis | exact (Hrefused Hdis)].
Defined.

End ReviewProperties.

(** ** Runs of the handlers *)

Module RunFacts.
Import JS Browser Api Observations.

(** Unfolds the plumbing of any handler of the file. *)
Tactic Notation "exec" :=
  cbv [mbind mret M_bind M_ret bind ret throw lift gets modify tryCatch tryFinally
       emit getItem removeItem getSession setState getState fetch json
       Upload.setStatus Upload.setPassword Upload.setRequiresPassword
       Upload.setSelectedFile Upload.setMessage Upload.setExtractedData
       Upload.setShowConfirmation Upload.setIsSaving
       Home.setExpenses Home.setBackendConnected Home.setLoading
       Charts.setUrl Charts.setError
       Assistant.setQuery Assistant.setMessages Assistant.setLoading
       AuthCallback.setItem AuthCallback.throwIfFailed].

Tactic Notation "exec" "in" hyp(H) :=
  cbv [mbind mret M_bind M_ret bind ret throw lift gets modify tryCatch tryFinally
       emit getItem removeItem getSession setState getState fetch json
       Upload.setStatus Upload.setPassword Upload.setRequiresPassword
       Upload.setSelectedFile Upload.setMessage Upload.setExtractedData
       Upload.setShowConfirmation Upload.setIsSaving
       Home.setExpenses Home.setBackendConnected Home.setLoading
       Charts.setUrl Charts.setError
       Assistant.setQuery Assistant.setMessages Assistant.setLoading
       AuthCallback.setItem AuthCallback.throwIfFailed] in H.

Lemma requestsOf_app l l' : requestsOf (l ++ l') = requestsOf l ++ requestsOf l'.
Proof. apply omap_app. Qed.

Lemma navigationsOf_app l l' :
  navigationsOf (l ++ l') = navigationsOf l ++ navigationsOf l'.
Proof. apply omap_app. Qed.

(** Brings the effects of a run into the shape [log w ++ new]. *)
Ltac tidy_log :=
  simpl; rewrite ?requestsOf_app, ?navigationsOf_app; simpl;
  rewrite <- ?app_assoc, ?app_nil_r.

(** Closes a goal about a finished run. *)
Ltac finished :=
  eexists _, _; (split; [reflexivity|]); (split; [reflexivity|]); tidy_log; reflexivity.

(** Whatever the network answers, [handleSubmit] completes, leaves the
    session alone, and sends the upload request once if there is a token,
    never otherwise. *)
Lemma handleSubmit_run remote w st :
  ∃ w' st',
    Upload.handleSubmit remote (w, st) = (Normal (), (w', st')) ∧
    session w' = session w ∧
    requestsOf (log w') =
      requestsOf (log w) ++
      match usable (localStorage w !! str "sb-token") with
      | Some token => [uploadRequest token st]
      | None => []
      end.
Proof.
  unfold Upload.handleSubmit. exec. simpl.
  destruct (usable (localStorage w !! str "sb-token")) as [token|] eqn:Htok; simpl.
  2:{ finished. }
  unfold uploadRequest. simpl.
  match goal with |- context [remote ?r] => set (sent := r) end.
  destruct (remote sent) as [msg|http content]; simpl.
  { finished. }
  case_bool_decide; simpl.
  { finished. }
  destruct content as [data|msg]; simpl.
  2:{ finished. }
  destruct (getProp data (str "requires_password")) as [req|e] eqn:Hreq; simpl.
  2:{ finished. }
  destruct (truthy req); simpl.
  { finished. }
  destruct (getProp data (str "success")) as [suc|e] eqn:Hsuc; simpl.
  2:{ finished. }
  destruct (getProp data (str "extracted_data")) as [ext|e] eqn:Hext; simpl.
  2:{ finished. }
  destruct (truthy suc && truthy ext) eqn:Hboth; simpl.
  { finished. }
  destruct (getProp data (str "status")) as [sta|e] eqn:Hsta; simpl.
  2:{ finished. }
  destruct (truthy suc); simpl.
  { finished. }
  destruct (truthy sta); simpl.
  2:{ finished. }
  destruct (includes sta Upload.checkMark) as [[]|e]; simpl;
    finished.
Qed.


Lemma handleFileChange_run file w st :
  Upload.handleFileChange file (w, st) =
    (Normal (),
     (w, Upload.mkState (Upload.status st) [] false file (VStr [])
           (Upload.extractedData st) (Upload.showConfirmation st) (Upload.isSaving st))).
Proof. destruct w. reflexivity. Qed.

End RunFacts.

Module UploadExtras.
Import JS Browser Api Upload Observations RunFacts.

(** X9. A submit never throws and never repeats itself: whatever the
    network answers, it sends the upload request once when a token is
    stored and no request at all otherwise. *)
Theorem submit_sends_at_most_one_request remote w st :
  let after := handleSubmit remote (w, st) in
  after.1 = Normal () ∧
  requestsOf (log after.2.1) =
    requestsOf (log w) ++
    match usable (localStorage w !! str "sb-token") with
    | Some token => [uploadRequest token st]
    | None => []
    end.
Proof.
  intros after. destruct (handleSubmit_run remote w st) as (w' & st' & Hrun & _ & Hreq).
  unfold after. rewrite Hrun. split; [reflexivity | exact Hreq].
Qed.

(** X10. Without a stored token (none, or an empty one) a submit sends
    nothing and goes to the login page; the component is left in
    ["uploading"], the state in which its button is disabled. *)
Theorem submit_without_token remote w st :
  usable (localStorage w !! str "sb-token") = None →
  handleSubmit remote (w, st) =
    (Normal (),
     (mkWorld (localStorage w) (session w) (log w ++ [RouterPush (str "/login")]),
      mkState (str "uploading") (password st) (requiresPassword st) (selectedFile st)
        (VStr []) (extractedData st) (showConfirmation st) (isSaving st))).
Proof.
  intros Htok. unfold handleSubmit. exec. simpl. rewrite Htok. reflexivity.
Qed.

Lemma submit_without_token_witness :
  status (handleSubmit Samples.unauthorized
            (mkWorld {[ str "sb-token" := [] ]} None [], Samples.uploadIdle)).2.2
  = str "uploading".
Proof.
  rewrite (submit_without_token Samples.unauthorized
             (mkWorld {[ str "sb-token" := [] ]} None []) Samples.uploadIdle);
    [reflexivity | vm_compute; reflexivity].
Defined.

(** X11. When the upload gets no usable answer (the request fails, or the
    body is not JSON, or it is the JSON [null]) the component shows the
    fixed connection error; the token stays and nothing navigates. *)
Theorem submit_transport_failure remote w st token :
  usable (localStorage w !! str "sb-token") = Some token →
  (∃ m, remote (uploadRequest token st) = FetchFailed m) ∨
  (∃ http body, remote (uploadRequest token st) = Response http body ∧ http ≠ 401%N ∧
                ((∃ m, body = NotJson m) ∨ body = Json VNull)) →
  let after := (handleSubmit remote (w, st)).2 in
  status after.2 = str "error" ∧
  message after.2 = VStr (crossMark ++ str " Error connecting to server") ∧
  localStorage after.1 = localStorage w ∧
  navigationsOf (log after.1) = navigationsOf (log w).
Proof.
  intros Htok Hans after. subst after.
  unfold handleSubmit. exec. simpl. rewrite Htok. simpl.
  unfold uploadRequest in Hans. simpl in Hans.
  match goal with |- context [remote ?r] => set (sent := r) in * end.
  destruct Hans as [[m ->]|(http & body & -> & H401 & Hbody)]; simpl.
  { repeat split; try reflexivity. by tidy_log. }
  rewrite bool_decide_eq_false_2 by assumption.
  destruct Hbody as [[m ->]| ->]; simpl; (repeat split; try reflexivity); by tidy_log.
Qed.

Lemma submit_transport_failure_witness :
  let after := (handleSubmit (λ _, FetchFailed (str "Failed to fetch"))
                  (Samples.signedIn, Samples.uploadIdle)).2 in
  status after.2 = str "error" ∧
  localStorage after.1 = localStorage Samples.signedIn.
Proof.
  intros after.
  destruct (submit_transport_failure (λ _, FetchFailed (str "Failed to fetch"))
              Samples.signedIn Samples.uploadIdle (str "token-1"))
    as (Hs & _ & Hl & _).
  - vm_compute. reflexivity.
  - left. eexists. reflexivity.
  - split; [exact Hs | exact Hl].
Defined.

(** X12. Choosing a file forgets the password typed for the one before:
    the submit that follows sends the new file without a password. *)
Theorem new_file_forgets_password remote w st file token :
  usable (localStorage w !! str "sb-token") = Some token →
  let chosen := (handleFileChange file (w, st)).2 in
  requiresPassword chosen.2 = false ∧
  requestsOf (log (handleSubmit remote chosen).2.1) =
    requestsOf (log w) ++
    [mkRequest (Localhost8000 (str "/upload")) (str "POST") [bearer token]
       (FormData file None)].
Proof.
  intros Htok chosen. subst chosen. rewrite handleFileChange_run. simpl.
  split; [reflexivity|].
  match goal with |- context [handleSubmit remote (w, ?s)] =>
    destruct (handleSubmit_run remote w s) as (w' & st' & Hrun & _ & Hreq) end.
  rewrite Hrun. cbn [fst snd]. rewrite Hreq, Htok. reflexivity.
Qed.

Lemma new_file_forgets_password_witness :
  let typed := mkState (str "idle") (str "secret") true (Some 1%N) (VStr []) VNull false false in
  requestsOf (log (handleSubmit Samples.unauthorized
                     (handleFileChange (Some 2%N) (Samples.signedIn, typed)).2).2.1) =
  [mkRequest (Localhost8000 (str "/upload")) (str "POST") [bearer (str "token-1")]
     (FormData (Some 2%N) None)].
Proof.
  intros typed.
  destruct (new_file_forgets_password Samples.unauthorized Samples.signedIn typed
              (Some 2%N) (str "token-1")) as [_ H]; [vm_compute; reflexivity|].
  exact H.
Defined.

End UploadExtras.

Module ReviewRunFacts.
Import JS Browser Api Upload Observations RunFacts.

(** A copy with an invalid field is not handed over. *)
Lemma invalid_not_handed_over m d f v :
  Modal.editedData m = Some d →
  f ≠ str "confidence" → d !! f = Some v → Modal.fieldError f v ≠ None →
  Modal.handedOver (Modal.handleConfirm m) = None.
Proof.
  intros Hd Hf Hv Herr.
  destruct (ModalFacts.handleConfirm_cases m d Hd) as [[e ->]|(E & W & -> & HE & _)];
    [reflexivity|].
  simpl. rewrite bool_decide_eq_false_2; [reflexivity|].
  intros HEmpty. apply (ModalFacts.revalidated_empty d E HE) in HEmpty.
  by apply Herr, HEmpty.
Qed.

(** A valid copy is. *)
Lemma valid_handed_over m d :
  Modal.editedData m = Some d → Modal.wellTyped d = true → Modal.allValid d →
  ∃ W, Modal.handleConfirm m =
         Normal (Modal.mkState (Some d) (Modal.editingField m) ∅ W, Some d).
Proof.
  intros Hd Hty Hall.
  destruct (ModalFacts.handleConfirm_spec m d Hd Hty) as (E & W & Hrun & HE & _).
  assert (E = ∅) as -> by (by apply (ModalFacts.revalidated_empty d)).
  rewrite bool_decide_eq_true_2 in Hrun by reflexivity. eauto.
Qed.

End ReviewRunFacts.

Module ReviewRunExtras.
Import JS Browser Api Upload Observations RunFacts ReviewRunFacts.

(** X13. Discarding closes the modal without a request: whatever the
    state, the modal is no longer shown, the extraction result is
    dropped, the working copy and the token are left alone, and the
    notice "Transaction discarded" is cleared by its timer. *)
Theorem discard_closes_without_request w up m :
  let after := App.discard w up m in
  App.reviewing after.1.2 after.2 = false ∧
  extractedData after.1.2 = VNull ∧
  status after.1.2 = str "idle" ∧
  message after.1.2 = VStr (str "Transaction discarded") ∧
  after.2 = m ∧
  localStorage after.1.1 = localStorage w ∧
  log after.1.1 = log w ++ [SetTimeout ClearMessage 2000] ∧
  message (runTimer ClearMessage (after.1.1, after.1.2)).2.2 = VStr [].
Proof. destruct w. repeat split. Qed.

(** X14. Without a Supabase session a save sends nothing: the user is
    told to log in, and the component and the modal stay as they were. *)
Theorem save_without_session E remote w st d :
  session w = None →
  handleConfirmTransaction E remote d (w, st) =
    (Normal (),
     (mkWorld (localStorage w) None (log w ++ [Alert (str "Please login first")]), st)).
Proof.
  destruct w as [ls sess lg]. simpl. intros ->.
  unfold handleConfirmTransaction. exec. reflexivity.
Qed.

Lemma save_without_session_witness :
  (handleConfirmTransaction Samples.engine0 Samples.rejecting Samples.extracted
     (mkWorld ∅ None [], Samples.uploadReviewing)).2.2 = Samples.uploadReviewing.
Proof.
  rewrite (save_without_session Samples.engine0 Samples.rejecting
             (mkWorld ∅ None []) Samples.uploadReviewing Samples.extracted eq_refl).
  reflexivity.
Defined.

(** X15. A copy with an invalid field never reaches the backend: the
    click changes nothing outside the modal, and sends nothing. *)
Theorem invalid_copy_never_sent E remote w up m d f v :
  Modal.editedData m = Some d →
  f ≠ str "confidence" → d !! f = Some v → Modal.fieldError f v ≠ None →
  (App.confirm E remote w up m).1 = (w, up).
Proof.
  intros Hd Hf Hv Herr.
  pose proof (invalid_not_handed_over m d f v Hd Hf Hv Herr) as Hno.
  unfold App.confirm.
  destruct (Modal.handleConfirm m) as [[m' [d'|]]|e]; simpl in Hno; [discriminate|done|done].
Qed.

Lemma invalid_copy_never_sent_witness :
  (App.confirm Samples.engine0 Samples.rejecting Samples.signedIn Samples.uploadReviewing
     (Samples.reviewingState Samples.negativeAmount)).1
  = (Samples.signedIn, Samples.uploadReviewing).
Proof.
  apply (invalid_copy_never_sent _ _ _ _ _ Samples.negativeAmount (str "amount")
           (VStr (str "-5"))); [reflexivity | discriminate | vm_compute; reflexivity |].
  vm_compute. discriminate.
Defined.

(** X16. A save that the backend accepts closes the modal, drops the
    extraction result, refreshes the page and shows the success notice;
    when its timer fires the component is idle again with no notice. *)
Theorem accepted_save_returns_to_idle E remote w up m d token :
  Modal.editedData m = Some d → Modal.wellTyped d = true → ModalEvents.plainKeys d →
  Modal.allValid d →
  session w = Some token →
  saved (remote (confirmRequest d token)) = true →
  let after := App.confirm E remote w up m in
  showConfirmation after.1.2 = false ∧
  extractedData after.1.2 = VNull ∧
  isSaving after.1.2 = false ∧
  status after.1.2 = str "success" ∧
  message after.1.2 = VStr (checkMark ++ str " Transaction saved successfully!") ∧
  log after.1.1 =
    log w ++ [ConsoleLog; Fetch (confirmRequest d token); ConsoleLog; RouterRefresh;
              SetTimeout ResetStatusAndMessage 3000] ∧
  let later := (runTimer ResetStatusAndMessage after.1).2.2 in
  status later = str "idle" ∧ message later = VStr [] ∧ showConfirmation later = false.
Proof.
  intros Hd Hty _ Hall Hs Hsaved after.
  destruct (valid_handed_over m d Hd Hty Hall) as [W Hrun].
  destruct w as [ls sess lg]. simpl in Hs. subst sess.
  subst after. unfold App.confirm. rewrite Hrun.
  unfold handleConfirmTransaction, confirmTransaction. exec. simpl.
  fold (confirmRequest d token).
  destruct (remote (confirmRequest d token)) as [msg|http [v|msg]]; simpl in Hsaved;
    try discriminate.
  simpl. rewrite bool_decide_eq_false_2 by (intros ->; discriminate).
  rewrite Hsaved. simpl. rewrite <- !app_assoc. repeat split.
Qed.

Lemma accepted_save_returns_to_idle_witness :
  let accepting := λ _ : request, Response 200 (Json (VObj ∅)) in
  let after := App.confirm Samples.engine0 accepting Samples.signedIn
                 Samples.uploadReviewing (Samples.reviewingState Samples.extracted) in
  showConfirmation after.1.2 = false ∧ status after.1.2 = str "success" ∧
  status (runTimer ResetStatusAndMessage after.1).2.2 = str "idle".
Proof.
  intros accepting after.
  assert (Hty : Modal.wellTyped Samples.extracted = true) by (vm_compute; reflexivity).
  assert (Hall : Modal.allValid Samples.extracted).
  { apply (ModalFacts.allValid_by_run (Samples.reviewingState Samples.extracted));
      [reflexivity | exact Hty | vm_compute; reflexivity]. }
  destruct (accepted_save_returns_to_idle Samples.engine0 accepting Samples.signedIn
              Samples.uploadReviewing (Samples.reviewingState Samples.extracted)
              Samples.extracted (str "token-1") eq_refl Hty
              ModalFacts.plainKeys_extracted Hall eq_refl eq_refl)
    as (Hshow & _ & _ & Hstatus & _ & _ & Hidle & _).
  split; [exact Hshow|]. split; [exact Hstatus | exact Hidle].
Defined.

End ReviewRunExtras.

Module ApiFacts.
Import JS Browser Api Observations RunFacts.

(** [fetchExpenses], by what the network answers. *)
Lemma fetchExpenses_run {S} E remote token (w : world) (st : S) :
  ∃ r tail,
    fetchExpenses E remote token (w, st) =
      (r, (mkWorld (localStorage w) (session w)
             (log w ++ Fetch (listRequest token) :: tail), st)) ∧
    requestsOf tail = [] ∧ navigationsOf tail = [] ∧
    match r with
    | Normal v => accepted (remote (listRequest token)) = Some v ∨ v = VArr []
    | Throw e => messageOf E e = str "Unauthorized"
    end.
Proof.
  unfold fetchExpenses. exec. simpl. fold (listRequest token).
  destruct (remote (listRequest token)) as [msg|http content] eqn:Hans; simpl.
  { case_bool_decide as Hm; eexists _, _; rewrite <- !app_assoc;
      (split; [reflexivity|]); (split; [reflexivity|]); (split; [reflexivity|]);
      [exact Hm | by right]. }
  case_bool_decide as H401; simpl.
  { rewrite ?bool_decide_eq_true_2 by reflexivity.
    eexists _, _. rewrite <- !app_assoc. by repeat split. }
  case_bool_decide as H404; simpl.
  { eexists _, []. split; [reflexivity|]. repeat split. by right. }
  destruct (ok http) eqn:Hok; simpl.
  - destruct content as [v|msg]; simpl.
    + eexists _, []. split; [reflexivity|]. repeat split.
      by left.
    + case_bool_decide as Hm; eexists _, _; rewrite <- !app_assoc;
        (split; [reflexivity|]); (split; [reflexivity|]); (split; [reflexivity|]);
        [exact Hm | by right].
  - rewrite ?bool_decide_eq_false_2 by (vm_compute; discriminate).
    eexists _, _. rewrite <- !app_assoc.
    split; [reflexivity|]. repeat split. by right.
Qed.

End ApiFacts.

Module ApiExtras.
Import JS Browser Api Observations RunFacts ApiFacts.

(** Follows every branch of a helper down to the effects it leaves. *)
Ltac log_cases :=
  simpl;
  repeat (first
    [ by tidy_log
    | case_bool_decide
    | match goal with |- context [ok ?h] => destruct (ok h) end
    | match goal with |- context [getProp ?b ?k] => destruct (getProp b k) end ];
    simpl).

(** Closes an equivalence between two results that are both refusals or
    both the same value. *)
Ltac settle :=
  simpl; split; intros Hx;
  first [discriminate Hx | injection Hx as ->; reflexivity].

(** X17. The listing degrades to an empty list: [fetchExpenses] sends one
    request and returns the body of a 2xx JSON answer, or [[]] for a 404,
    another refusal, a failed request or a body that is not JSON. The
    only error it lets through is one whose message is "Unauthorized",
    which a 401 always raises. *)
Theorem fetchExpenses_degrades_to_empty {S} E remote token (w : world) (st : S) :
  let run := fetchExpenses E remote token (w, st) in
  match run.1 with
  | Normal v => accepted (remote (listRequest token)) = Some v ∨ v = VArr []
  | Throw e => messageOf E e = str "Unauthorized"
  end ∧
  requestsOf (log run.2.1) = requestsOf (log w) ++ [listRequest token] ∧
  localStorage run.2.1 = localStorage w ∧ run.2.2 = st ∧
  (∀ body, remote (listRequest token) = Response 401 body →
           run.1 = Throw (ErrorObj (str "Unauthorized"))) ∧
  (∀ body, remote (listRequest token) = Response 404 body → run.1 = Normal (VArr [])).
Proof.
  intros run.
  destruct (fetchExpenses_run E remote token w st) as (r & tail & Hrun & Hreq & _ & Hr).
  split; [|split; [|split; [|split; [|split]]]].
  - unfold run. rewrite Hrun. exact Hr.
  - unfold run. rewrite Hrun. cbn [fst snd log].
    rewrite requestsOf_app. simpl. by rewrite Hreq.
  - unfold run. by rewrite Hrun.
  - unfold run. by rewrite Hrun.
  - intros body Hans. unfold run, fetchExpenses. exec. simpl.
    fold (listRequest token). rewrite Hans. simpl.
    rewrite ?bool_decide_eq_true_2 by reflexivity. reflexivity.
  - intros body Hans. unfold run, fetchExpenses. exec. simpl.
    fold (listRequest token). rewrite Hans. reflexivity.
Qed.

(** X18. The three helpers that change something return a value exactly
    when the backend answers 2xx with a JSON body, and then that body;
    each sends its request once. *)
Theorem helpers_return_iff_accepted {S} E remote (w : world) (st : S) d id token v :
  let confirming :=
    mkRequest (ApiUrl (str "/transactions/confirm")) (str "POST")
      [(str "Content-Type", str "application/json"); bearer token] (JsonBody d) in
  let refreshing :=
    mkRequest (ApiUrl (str "/reports/refresh")) (str "POST") [bearer token] NoBody in
  ((confirmTransaction E remote d token (w, st)).1 = Normal v ↔
   accepted (remote confirming) = Some v) ∧
  ((deleteTransactionAPI remote id token (w, st)).1 = Normal v ↔
   accepted (remote (deleteRequest id token)) = Some v) ∧
  ((refreshCharts remote token (w, st)).1 = Normal v ↔
   accepted (remote refreshing) = Some v) ∧
  requestsOf (log (confirmTransaction E remote d token (w, st)).2.1) =
    requestsOf (log w) ++ [confirming] ∧
  requestsOf (log (deleteTransactionAPI remote id token (w, st)).2.1) =
    requestsOf (log w) ++ [deleteRequest id token] ∧
  requestsOf (log (refreshCharts remote token (w, st)).2.1) =
    requestsOf (log w) ++ [refreshing].
Proof.
  intros confirming refreshing.
  unfold confirmTransaction, deleteTransactionAPI, refreshCharts.
  fold (deleteRequest id token). generalize (deleteRequest id token). intros deleting.
  exec. simpl. fold confirming. fold refreshing.
  split; [|split; [|split; [|split; [|split]]]].
  - destruct (remote confirming) as [m|http [b|m]]; simpl;
      [settle|..];
      (case_bool_decide as Hh; [subst http; settle|]);
      simpl; destruct (ok http) eqn:Hok; try settle.
    simpl. destruct (getProp b (str "detail")); settle.
  - destruct (remote deleting) as [m|http [b|m]]; simpl;
      [settle|..];
      (case_bool_decide as Hh; [subst http; settle|]);
      simpl; destruct (ok http) eqn:Hok; settle.
  - destruct (remote refreshing) as [m|http [b|m]]; simpl;
      [settle|..];
      (case_bool_decide as Hh; [subst http; settle|]);
      simpl; destruct (ok http) eqn:Hok; settle.
  - destruct (remote confirming) as [m|http [b|m]]; log_cases.
  - destruct (remote deleting) as [m|http [b|m]]; log_cases.
  - destruct (remote refreshing) as [m|http [b|m]]; log_cases.
Qed.

(** X19. The notice of a failed save always gives a reason: the [detail]
    of the answer when it is a text that is not empty, "Failed to save
    transaction" when the answer is a JSON object without a usable
    [detail], and never an empty text. *)
Theorem failed_save_gives_a_reason E remote w st d token :
  session w = Some token →
  Upload.saved (remote (Upload.confirmRequest d token)) = false →
  let after := (Upload.handleConfirmTransaction E remote d (w, st)).2.2 in
  (∃ reason, Upload.message after = VStr (Upload.msgSaveFailed ++ reason) ∧ reason ≠ []) ∧
  (∀ http o, remote (Upload.confirmRequest d token) = Response http (Json (VObj o)) →
             http ≠ 401%N → truthy (get o (str "detail")) = false →
             Upload.message after =
               VStr (Upload.msgSaveFailed ++ str "Failed to save transaction")).
Proof.
  intros Hs Hsaved after. subst after.
  destruct w as [ls sess lg]. simpl in Hs. subst sess.
  unfold Upload.handleConfirmTransaction, confirmTransaction. exec. simpl.
  fold (Upload.confirmRequest d token).
  assert (Hreason : ∀ m : jstring,
            (if negb (bool_decide (m = [])) then m else str "Unknown error") ≠ []).
  { intros m. case_bool_decide; simpl; [discriminate | done]. }
  destruct (remote (Upload.confirmRequest d token)) as [m|http body] eqn:Hans; simpl.
  { split; [eexists; split; [reflexivity | apply Hreason] | intros ? ? [=]]. }
  case_bool_decide as H401; simpl.
  { split; [eexists; split; [reflexivity | discriminate]|].
    intros http' o [= <- _] Hne. done. }
  destruct (ok http) eqn:Hok; simpl.
  { destruct body as [v|m]; simpl in Hsaved; [congruence|]. simpl.
    split; [eexists; split; [reflexivity | apply Hreason] | intros ? ? [=]]. }
  destruct body as [v|m]; simpl.
  2:{ split; [eexists; split; [reflexivity | apply Hreason] | intros ? ? [=]]. }
  destruct (getProp v (str "detail")) as [det|e] eqn:Hdet; simpl.
  - split; [eexists; split; [reflexivity | apply Hreason]|].
    intros http' o [= <- ->] _ Hfalsy. simpl in Hdet. injection Hdet as <-.
    rewrite Hfalsy. reflexivity.
  - split; [eexists; split; [reflexivity | apply Hreason]|].
    intros http' o [= <- ->]. discriminate Hdet.
Qed.

Lemma failed_save_gives_a_reason_witness :
  let remote := λ _ : request, Response 500 (Json (VObj {[ str "detail" := VNull ]})) in
  Upload.message (Upload.handleConfirmTransaction Samples.engine0 remote Samples.extracted
                    (Samples.signedIn, Samples.uploadReviewing)).2.2 =
  VStr (Upload.msgSaveFailed ++ str "Failed to save transaction").
Proof.
  intros remote.
  destruct (failed_save_gives_a_reason Samples.engine0 remote Samples.signedIn
              Samples.uploadReviewing Samples.extracted (str "token-1") eq_refl eq_refl)
    as [_ H].
  apply (H 500%N {[ str "detail" := VNull ]} eq_refl); [discriminate | reflexivity].
Defined.

End ApiExtras.

(** ** The home page *)

Module HomeFacts.
Import JS Browser Api Observations RunFacts ApiFacts.

(** [loadExpenses], by where it ends. *)
Lemma loadExpenses_run E remote w st :
  ∃ w' st',
    Home.loadExpenses E remote (w, st) = (Normal (), (w', st')) ∧
    Home.loading st' = false ∧
    Home.backendConnected st' = Home.backendConnected st ∧
    requestsOf (log w') =
      requestsOf (log w) ++
      match usable (localStorage w !! str "sb-token") with
      | Some token => [listRequest token]
      | None => []
      end ∧
    ((localStorage w' = localStorage w ∧ navigationsOf (log w') = navigationsOf (log w)) ∨
     (localStorage w' = delete (str "sb-token") (localStorage w) ∧
      navigationsOf (log w') = navigationsOf (log w) ++ [str "/login"] ∧
      Home.expenses st' = Home.expenses st)).
Proof.
  unfold Home.loadExpenses. exec. simpl.
  destruct (usable (localStorage w !! str "sb-token")) as [token|] eqn:Htok; simpl.
  2:{ eexists _, _. split; [reflexivity|]. simpl. rewrite app_nil_r.
      repeat split; try reflexivity. by left. }
  destruct (fetchExpenses_run E remote token w st) as (r & tail & Hrun & Hreq & Hnav & Hr).
  destruct w as [ls sess lg]. simpl in *. rewrite Hrun. simpl.
  destruct r as [v|e]; simpl.
  - eexists _, _. split; [reflexivity|]. tidy_log.
    rewrite Hreq, Hnav, ?app_nil_r. repeat split; try reflexivity. by left.
  - rewrite bool_decide_eq_true_2 by exact Hr. simpl.
    eexists _, _. split; [reflexivity|]. tidy_log.
    rewrite Hreq, Hnav, ?app_nil_r. repeat split; try reflexivity. by right.
Qed.

End HomeFacts.

Module HomeExtras.
Import JS Browser Api Observations RunFacts ApiFacts HomeFacts.

(** X20. Loading the expenses always ends with the spinner off and sends
    at most one request. It never marks the backend as disconnected:
    [fetchExpenses] lets only "Unauthorized" through, so the branch that
    would do so is out of reach. *)
Theorem loadExpenses_settles E remote w st :
  let after := Home.loadExpenses E remote (w, st) in
  after.1 = Normal () ∧
  Home.loading after.2.2 = false ∧
  Home.backendConnected after.2.2 = Home.backendConnected st ∧
  requestsOf (log after.2.1) =
    requestsOf (log w) ++
    match usable (localStorage w !! str "sb-token") with
    | Some token => [listRequest token]
    | None => []
    end ∧
  ((localStorage after.2.1 = localStorage w ∧
    navigationsOf (log after.2.1) = navigationsOf (log w)) ∨
   (localStorage after.2.1 = delete (str "sb-token") (localStorage w) ∧
    navigationsOf (log after.2.1) = navigationsOf (log w) ++ [str "/login"] ∧
    Home.expenses after.2.2 = Home.expenses st)).
Proof.
  intros after. subst after.
  destruct (loadExpenses_run E remote w st) as (w' & st' & -> & H).
  split; [reflexivity | exact H].
Qed.

(** X21. A 401 on the list of expenses signs the user out: the stored
    token is removed, the router goes to the login page, the expenses shown
    stay as they were. *)
Theorem loadExpenses_unauthorized E remote w st token content :
  usable (localStorage w !! str "sb-token") = Some token →
  remote (listRequest token) = Response 401 content →
  let after := (Home.loadExpenses E remote (w, st)).2 in
  localStorage after.1 = delete (str "sb-token") (localStorage w) ∧
  navigationsOf (log after.1) = navigationsOf (log w) ++ [str "/login"] ∧
  Home.expenses after.2 = Home.expenses st ∧
  Home.loading after.2 = false.
Proof.
  intros Htok Hans after. subst after.
  unfold Home.loadExpenses, fetchExpenses. exec. simpl. rewrite Htok. simpl.
  fold (listRequest token). rewrite Hans. simpl.
  repeat split; try reflexivity. by tidy_log.
Qed.

Lemma loadExpenses_unauthorized_witness :
  let after := (Home.loadExpenses Samples.engine0 Samples.unauthorized
                  (Samples.signedIn, Home.mkState (VArr []) true true)).2 in
  localStorage after.1 !! str "sb-token" = None ∧ Home.loading after.2 = false.
Proof.
  intros after.
  destruct (loadExpenses_unauthorized Samples.engine0 Samples.unauthorized Samples.signedIn
              (Home.mkState (VArr []) true true) (str "token-1")
              (Json (VObj {[ str "detail" := VStr (str "Invalid token") ]})))
    as (Hl & _ & _ & Hload).
  - vm_compute. reflexivity.
  - reflexivity.
  - split; [|exact Hload]. fold after in Hl. rewrite Hl. apply lookup_delete_eq.
Defined.

(** X22. The effect on mount completes and sends at most one request.
    Without a usable token it only goes to the login page and leaves the
    state alone, so the spinner is switched off exactly when a token was
    there or it was off already. *)
Theorem onMount_spinner E remote w st :
  let after := HomePage.onMount E remote (w, st) in
  after.1 = Normal () ∧
  (Home.loading after.2.2 = false ↔
   is_Some (usable (localStorage w !! str "sb-token")) ∨ Home.loading st = false) ∧
  (usable (localStorage w !! str "sb-token") = None →
   after.2 = (mkWorld (localStorage w) (session w) (log w ++ [RouterPush (str "/login")]),
              st)).
Proof.
  intros after. subst after. unfold HomePage.onMount.
  destruct (loadExpenses_run E remote w st) as (w' & st' & Hrun & Hload & _).
  cbv [mbind mret M_bind M_ret bind ret gets getItem].
  destruct (usable (localStorage w !! str "sb-token")) as [token|] eqn:Htok.
  - rewrite Hrun. split; [reflexivity|]. split; [|discriminate].
    split; [intros _; left; by eexists | intros _; exact Hload].
  - exec. simpl. split; [reflexivity|]. split; [|reflexivity].
    split; [by right | intros [[? [=]]|H]; exact H].
Qed.

(** X23. After a logout the page does not talk to the backend: the effect
    on mount that follows sends no request and goes to the login page,
    whatever token was stored before. *)
Theorem logout_then_mount E remote w st :
  let out := (HomePage.logout (w, st)).2 in
  let after := (HomePage.onMount E remote out).2 in
  localStorage out.1 !! str "sb-token" = None ∧
  requestsOf (log after.1) = requestsOf (log w) ∧
  navigationsOf (log after.1) = navigationsOf (log w) ++ [str "/login"; str "/login"] ∧
  after.2 = st.
Proof.
  intros out after. subst after out. unfold HomePage.logout, HomePage.onMount.
  exec. simpl. rewrite lookup_delete_eq. simpl.
  repeat split; try reflexivity; by tidy_log.
Qed.

End HomeExtras.

(** ** The delete button and the charts *)

Module WidgetFacts.
Import JS Browser Api Observations RunFacts.

(** [deleteTransactionAPI], by what the network answers. *)
Lemma deleteTransactionAPI_run {S} remote id token (w : world) (st : S) :
  ∃ r,
    deleteTransactionAPI remote id token (w, st) =
      (r, (mkWorld (localStorage w) (session w) (log w ++ [Fetch (deleteRequest id token)]),
           st)) ∧
    match r with
    | Normal v => accepted (remote (deleteRequest id token)) = Some v
    | Throw _ => accepted (remote (deleteRequest id token)) = None
    end.
Proof.
  unfold deleteTransactionAPI.
  fold (deleteRequest id token). generalize (deleteRequest id token). intros deleting.
  exec. simpl.
  destruct (remote deleting) as [m|http [b|m]]; simpl;
    [by eexists|..];
    (case_bool_decide as H401; simpl; [subst http; by eexists|]);
    destruct (ok http); simpl; by eexists.
Qed.

End WidgetFacts.

Module WidgetExtras.
Import JS Browser Api Observations RunFacts WidgetFacts.

(** X24. Everything the delete button does: it asks first and stops when
    the user declines; without a session it only alerts; with one it
    sends the delete once, refreshes the page exactly when the backend
    answers 2xx with a JSON body and otherwise alerts "Failed to delete".
    A 2xx answer without a JSON body, such as an empty 204, is therefore
    reported as a failure. The handler never throws, never navigates and
    never touches the stored token or the session. *)
Theorem handleDelete_outcomes remote w id answer :
  let after := DeleteButton.handleDelete remote id answer (w, ()) in
  after.1 = Normal () ∧
  localStorage after.2.1 = localStorage w ∧
  session after.2.1 = session w ∧
  log after.2.1 =
    log w ++ ConfirmDialog (str "Are you sure?") ::
    match answer, session w with
    | false, _ => []
    | true, None => [Alert (str "Please login first")]
    | true, Some token =>
        Fetch (deleteRequest id token) ::
        (if accepted (remote (deleteRequest id token)) is Some _ then [RouterRefresh]
         else [ConsoleError; Alert (str "Failed to delete")])
    end ∧
  (∀ token m, answer = true → session w = Some token →
              remote (deleteRequest id token) = Response 204 (NotJson m) →
              log after.2.1 =
                log w ++ [ConfirmDialog (str "Are you sure?"); Fetch (deleteRequest id token);
                          ConsoleError; Alert (str "Failed to delete")]).
Proof.
  intros after.
  assert (Hmain : after.1 = Normal () ∧
    localStorage after.2.1 = localStorage w ∧
    session after.2.1 = session w ∧
    log after.2.1 =
      log w ++ ConfirmDialog (str "Are you sure?") ::
      match answer, session w with
      | false, _ => []
      | true, None => [Alert (str "Please login first")]
      | true, Some token =>
          Fetch (deleteRequest id token) ::
          (if accepted (remote (deleteRequest id token)) is Some _ then [RouterRefresh]
           else [ConsoleError; Alert (str "Failed to delete")])
      end).
  { subst after. unfold DeleteButton.handleDelete.
    destruct answer; [|exec; simpl; by repeat split].
    destruct w as [ls [token|] lg]; [|exec; simpl; repeat split; by tidy_log].
    exec. simpl.
    match goal with |- context [deleteTransactionAPI remote id token (?w', ?s')] =>
      destruct (deleteTransactionAPI_run remote id token w' s') as (r & -> & Hr)
    end.
    simpl in *. destruct r as [v|e]; rewrite Hr; simpl; repeat split; by tidy_log. }
  destruct Hmain as (H1 & H2 & H3 & H4). repeat split; try assumption.
  intros token m -> Hs Hans. rewrite H4, Hs, Hans. reflexivity.
Qed.

(** X25. Loading a chart concerns that chart alone: the other three keep
    their image and their error flag. Without a usable token nothing
    happens at all. With one, a single request leaves; a 2xx answer whose
    body can be read sets the image and clears the flag; a 2xx answer
    whose body cannot be read, any other answer (a 401 included) and a
    failed request only raise the flag. The stored token stays and the
    router is not used. *)
Theorem fetchChartOf_outcomes remote objectUrl c w st :
  let after := Charts.fetchChartOf remote objectUrl c (w, st) in
  after.1 = Normal () ∧
  localStorage after.2.1 = localStorage w ∧
  navigationsOf (log after.2.1) = navigationsOf (log w) ∧
  (∀ c', c' ≠ c →
         Charts.urlOf c' after.2.2 = Charts.urlOf c' st ∧
         Charts.errorOf c' after.2.2 = Charts.errorOf c' st) ∧
  match usable (localStorage w !! str "sb-token") with
  | None => after.2 = (w, st)
  | Some token =>
      requestsOf (log after.2.1) = requestsOf (log w) ++ [chartRequest c token] ∧
      match remote (chartRequest c token) with
      | Response http content =>
          match ok http, objectUrl content with
          | true, Normal url =>
              Charts.urlOf c after.2.2 = VStr url ∧
              Charts.errorOf c after.2.2 = false
          | _, _ =>
              Charts.urlOf c after.2.2 = Charts.urlOf c st ∧
              Charts.errorOf c after.2.2 = true
          end
      | FetchFailed _ =>
          Charts.urlOf c after.2.2 = Charts.urlOf c st ∧
          Charts.errorOf c after.2.2 = true
      end
  end.
Proof.
  intros after. subst after. unfold Charts.fetchChartOf, Charts.fetchChart.
  exec. simpl.
  destruct (usable (localStorage w !! str "sb-token")) as [token|] eqn:Htok; simpl.
  2:{ destruct w. by repeat split. }
  fold (chartRequest c token).
  destruct (remote (chartRequest c token)) as [m|http content]; simpl;
    [|destruct (ok http); simpl; [destruct (objectUrl content) as [url|e]; simpl|]];
    (repeat first [split | intros c' Hc']);
    first [by tidy_log | by destruct c | by destruct c, c'].
Qed.

End WidgetExtras.

(** ** Signing in, and the assistant *)

Module SignInExtras.
Import JS Browser Api Observations RunFacts.
Import AuthCallback.

(** X26. The callback page goes to the home page only after storing the
    token of a session, and to the login page without touching the
    storage. An error of the first answer wins over the session it may
    carry. One path does neither: a user without a session at the second
    try leaves the page as it is, with nothing stored and no navigation.
    The page never calls the backend. *)
Theorem callback_outcomes first user second w :
  let after := handleAuthCallback first user second (w, ()) in
  after.1 = Normal () ∧
  session after.2.1 = session w ∧
  requestsOf (log after.2.1) = requestsOf (log w) ∧
  ((∃ token, localStorage after.2.1 = <[str "sb-token" := token]> (localStorage w) ∧
             navigationsOf (log after.2.1) = navigationsOf (log w) ++ [str "/"]) ∨
   (localStorage after.2.1 = localStorage w ∧
    navigationsOf (log after.2.1) = navigationsOf (log w) ++ [str "/login"]) ∨
   after.2 = (w, ())) ∧
  (∀ token, failure first = None → carried first = Some token →
            localStorage after.2.1 = <[str "sb-token" := token]> (localStorage w) ∧
            navigationsOf (log after.2.1) = navigationsOf (log w) ++ [str "/"]) ∧
  (∀ e, failure first = Some e →
        localStorage after.2.1 = localStorage w ∧
        navigationsOf (log after.2.1) = navigationsOf (log w) ++ [str "/login"]) ∧
  (∀ u, failure first = None → carried first = None →
        failure user = None → carried user = Some u →
        failure second = None → carried second = None →
        after.2 = (w, ())).
Proof.
  intros after. subst after. unfold handleAuthCallback.
  destruct w as [ls sess lg].
  destruct first as [[t1|] [e1|]], user as [[u|] [e2|]], second as [[t2|] [e3|]];
    exec; simpl;
    (repeat first [split | intros ? | intros ? ?]);
    try discriminate; try reflexivity; try (by tidy_log);
    try (simplify_eq/=; by tidy_log);
    first [ left; eexists; split; [reflexivity | by tidy_log]
          | right; left; split; [reflexivity | by tidy_log]
          | right; right; reflexivity ].
Qed.

(** X27. The token stored by the callback page is the one the next
    upload presents: signing in and then submitting sends the upload with
    that bearer. A session whose token is the empty text counts as no
    token: the submit sends nothing. *)
Theorem callback_token_is_sent remote first user second w st token :
  failure first = None →
  carried first = Some token →
  let signed := (handleAuthCallback first user second (w, ())).2.1 in
  requestsOf (log (Upload.handleSubmit remote (signed, st)).2.1) =
    requestsOf (log w) ++
    (if bool_decide (token = []) then [] else [uploadRequest token st]).
Proof.
  intros Hfail Hcarried signed.
  destruct (handleSubmit_run remote signed st) as (w' & st' & Hrun & _ & Hreq).
  rewrite Hrun. simpl. rewrite Hreq. clear Hrun Hreq.
  subst signed. unfold handleAuthCallback.
  destruct first as [c1 f1]. simpl in Hfail, Hcarried. subst c1 f1.
  exec. simpl. rewrite lookup_insert_eq. tidy_log.
  destruct token; reflexivity.
Qed.

Lemma callback_token_is_sent_witness :
  let signed := (handleAuthCallback (mkAnswer (Some (str "token-2")) None)
                   (mkAnswer None None) (mkAnswer None None)
                   (mkWorld ∅ None [], ())).2.1 in
  requestsOf (log (Upload.handleSubmit Samples.unauthorized
                     (signed, Samples.uploadIdle)).2.1) =
  [uploadRequest (str "token-2") Samples.uploadIdle].
Proof.
  exact (callback_token_is_sent Samples.unauthorized
           (mkAnswer (Some (str "token-2")) None) (mkAnswer None None) (mkAnswer None None)
           (mkWorld ∅ None []) Samples.uploadIdle (str "token-2") eq_refl eq_refl).
Defined.

End SignInExtras.

Module AssistantFacts.
Import JS Browser Api RunFacts ValidatorFacts.

Lemma trimStart_ends_visible s c :
  isWhiteSpace c = false → trimStart (s ++ [c]) ≠ [].
Proof.
  intros Hc. induction s as [|d s IH]; simpl.
  - by rewrite Hc.
  - destruct (isWhiteSpace d); [exact IH | done].
Qed.

(** A text trims to nothing exactly when it is white space throughout. *)
Lemma trim_empty s : trim s = [] ↔ forallb isWhiteSpace s = true.
Proof.
  unfold trim. destruct (trimStart_cases s) as [[Hs Hall]|(c & r & Hs & Hc)].
  - rewrite Hs. split; [intros _; exact Hall | reflexivity].
  - split.
    + rewrite Hs. unfold trimEnd. simpl. intros H.
      apply (f_equal (@rev _)) in H. rewrite rev_involutive in H. simpl in H.
      by destruct (trimStart_ends_visible (rev r) c Hc).
    + intros Hall. rewrite (trimStart_all_blank s Hall) in Hs. discriminate Hs.
Qed.

(** A question that is not blank makes the conversation two messages
    longer. *)
Lemma handleSend_run remote w st :
  trim (Assistant.query st) ≠ [] →
  ∃ reply,
    Assistant.messages (Assistant.handleSend remote (w, st)).2.2 =
      Assistant.messages st ++
      [Assistant.mkMessage (str "user") (VStr (Assistant.query st));
       Assistant.mkMessage (str "ai") reply].
Proof.
  intros Hq. unfold Assistant.handleSend.
  cbv [mbind mret M_bind M_ret bind getState gets]. cbn [snd].
  unfold truthy. rewrite bool_decide_eq_false_2 by exact Hq. simpl.
  exec. simpl.
  destruct (usable (localStorage w !! str "sb-token")) as [token|]; simpl.
  2:{ eexists. by rewrite <- app_assoc. }
  match goal with |- context [remote ?r] => destruct (remote r) as [m|http [v|m]] end;
    simpl; try (eexists; by rewrite <- app_assoc).
  destruct (getProp v (str "response")); simpl; eexists; by rewrite <- app_assoc.
Qed.

End AssistantFacts.

Module AssistantExtras.
Import JS Browser Api Observations RunFacts AssistantFacts.
Import Assistant.

(** X28. Sending a question that is not blank adds exactly two messages,
    the question as typed and one reply, empties the input and ends with
    the spinner off. At most one request leaves. The reply is the
    [response] of the JSON answer whatever its status; it is the fixed
    connection error when the request fails, the body is not JSON or is
    [null]; it asks to log in when no token is stored. *)
Theorem handleSend_exchange remote w st :
  trim (query st) ≠ [] →
  let after := handleSend remote (w, st) in
  after.1 = Normal () ∧
  query after.2.2 = [] ∧
  loading after.2.2 = false ∧
  localStorage after.2.1 = localStorage w ∧
  log after.2.1 =
    log w ++
    match usable (localStorage w !! str "sb-token") with
    | Some token => [Fetch (chatRequest (query st) token)]
    | None => []
    end ∧
  ∃ reply,
    messages after.2.2 =
      messages st ++ [mkMessage (str "user") (VStr (query st)); mkMessage (str "ai") reply] ∧
    match usable (localStorage w !! str "sb-token") with
    | None => reply = VStr (str "Please login to use the chat assistant.")
    | Some token =>
        match remote (chatRequest (query st) token) with
        | Response _ (Json v) =>
            match getProp v (str "response") with
            | Normal r => reply = r
            | Throw _ => reply = VStr (str "Error connecting to server.")
            end
        | _ => reply = VStr (str "Error connecting to server.")
        end
    end.
Proof.
  intros Hq after. subst after. unfold handleSend.
  cbv [mbind mret M_bind M_ret bind getState gets]. cbn [snd].
  unfold truthy. rewrite bool_decide_eq_false_2 by exact Hq. simpl.
  exec. simpl.
  destruct (usable (localStorage w !! str "sb-token")) as [token|] eqn:Htok; simpl.
  2:{ rewrite app_nil_r. repeat split. eexists. split; [|reflexivity].
      by rewrite <- app_assoc. }
  fold (chatRequest (query st) token).
  destruct (remote (chatRequest (query st) token)) as [m|http [v|m]]; simpl.
  - repeat split. eexists. split; [|reflexivity]. by rewrite <- app_assoc.
  - destruct (getProp v (str "response")) as [r|e]; simpl;
      repeat split; eexists; (split; [|reflexivity]); by rewrite <- app_assoc.
  - repeat split. eexists. split; [|reflexivity]. by rewrite <- app_assoc.
Qed.

Lemma handleSend_exchange_witness :
  let st := mkState (str " total? ") [] false in
  let remote := λ _ : request,
    Response 500 (Json (VObj {[ str "response" := VStr (str "42") ]})) in
  messages (handleSend remote (Samples.signedIn, st)).2.2 =
  [mkMessage (str "user") (VStr (str " total? ")); mkMessage (str "ai") (VStr (str "42"))].
Proof.
  intros st remote.
  destruct (handleSend_exchange remote Samples.signedIn st) as (_ & _ & _ & _ & _ & r & Hm & Hr).
  - vm_compute. discriminate.
  - rewrite Hm. vm_compute in Hr. rewrite Hr. reflexivity.
Defined.

(** X29. A question is ignored exactly when it is blank: the handler then
    changes nothing and sends nothing, and in every other case the
    conversation grows. *)
Theorem handleSend_ignores_blank remote w st :
  handleSend remote (w, st) = (Normal (), (w, st)) ↔
  forallb isWhiteSpace (query st) = true.
Proof.
  rewrite <- trim_empty. split.
  - intros Hrun. destruct (decide (trim (query st) = [])) as [|Hq]; [assumption|].
    destruct (handleSend_run remote w st Hq) as (reply & Hm).
    rewrite Hrun in Hm. simpl in Hm.
    apply (f_equal length) in Hm. rewrite length_app in Hm. simpl in Hm. lia.
  - intros Hq. unfold handleSend.
    cbv [mbind mret M_bind M_ret bind getState gets ret]. cbn [snd].
    unfold truthy. rewrite bool_decide_eq_true_2 by exact Hq. reflexivity.
Qed.

End AssistantExtras.
